(** * sdef-mcp: the SDEF parser, the parser cache and the dictionary tools

    A shallow embedding of [sdef_mcp.py].  Python [str] values are held as
    [string] (the UTF-8 bytes of the text), [dict]s with a fixed key set as
    records, [dict]s used as maps as [gmap], [list]s as [list], and the
    [for ... append] loops as left folds that thread the list being built.

    Two things follow from holding text as UTF-8.  Byte order is code point
    order, so [sorted] is the lexicographic order of [String.leb], and a
    string occurs in another exactly when its bytes do.  The white space
    [str.strip] and [str.rstrip] remove is recognised by its bytes, one, two
    or three per character.

    [str.lower] follows the Unicode tables and is not computed here: it is
    the function [str_lower] of the class [StrLower], and every definition
    that lower-cases and every property of one holds for whatever function
    that is. *)

From Stdlib Require Import String Ascii.
From stdpp Require Import base option list strings sorting gmap pretty.

Set Warnings "-register-all".

Local Open Scope string_scope.
Local Open Scope list_scope.

(** ** Python strings *)

Module Py.

(** Truth value of a [str]: only the empty string is false. *)
Definition truthy (s : string) : bool :=
  match s with
  | EmptyString => false
  | String _ _ => true
  end.

(** Truth value of [dict.get(key)]: [None] and the empty string are false. *)
Definition truthy_opt (o : option string) : bool :=
  match o with
  | Some s => truthy s
  | None => false
  end.

(** The letters [A] to [Z]. *)
Definition is_upper (c : ascii) : bool :=
  let n := nat_of_ascii c in (65 <=? n)%nat && (n <=? 90)%nat.

(** The lower case of one character. *)
Definition lower_char (c : ascii) : ascii :=
  if is_upper c then ascii_of_nat (nat_of_ascii c + 32) else c.

(** [s.lower()] for a string of ASCII characters, where only the letters
    [A] to [Z] change. *)
Fixpoint lower (s : string) : string :=
  match s with
  | EmptyString => EmptyString
  | String c s' => String (lower_char c) (lower s')
  end.

(** [q in s] for two strings: [q] occurs in [s] as a contiguous run. *)
Fixpoint contains (q s : string) : bool :=
  String.prefix q s ||
  match s with
  | EmptyString => false
  | String _ s' => contains q s'
  end.

(** [a or b] on strings *)
Definition or_ (a b : string) : string := if truthy a then a else b.

(** Truth value of a [list]: only the empty list is false. *)
Definition truthy_list {A} (l : list A) : bool :=
  match l with
  | [] => false
  | _ :: _ => true
  end.

(** [sep.join(parts)] *)
Definition join (sep : string) (parts : list string) : string :=
  String.concat sep parts.

(** The white space of one byte: the characters 9 to 13 and 28 to 32. *)
Definition is_space (c : ascii) : bool :=
  let n := nat_of_ascii c in
  ((9 <=? n)%nat && (n <=? 13)%nat) || ((28 <=? n)%nat && (n <=? 32)%nat).

(** The white space of two bytes: U+0085 and U+00A0. *)
Definition is_space2 (a b : ascii) : bool :=
  (nat_of_ascii a =? 194)%nat
  && ((nat_of_ascii b =? 133)%nat || (nat_of_ascii b =? 160)%nat).

(** The white space of three bytes: U+1680, U+2000 to U+200A, U+2028,
    U+2029, U+202F, U+205F and U+3000. *)
Definition is_space3 (a b c : ascii) : bool :=
  ((nat_of_ascii a =? 225)%nat && (nat_of_ascii b =? 154)%nat
   && (nat_of_ascii c =? 128)%nat)
  || ((nat_of_ascii a =? 226)%nat && (nat_of_ascii b =? 128)%nat
      && (((128 <=? nat_of_ascii c)%nat && (nat_of_ascii c <=? 138)%nat)
          || (nat_of_ascii c =? 168)%nat || (nat_of_ascii c =? 169)%nat
          || (nat_of_ascii c =? 175)%nat))
  || ((nat_of_ascii a =? 226)%nat && (nat_of_ascii b =? 129)%nat
      && (nat_of_ascii c =? 159)%nat)
  || ((nat_of_ascii a =? 227)%nat && (nat_of_ascii b =? 128)%nat
      && (nat_of_ascii c =? 128)%nat).

(** The string is made of white space and nothing else ([s.isspace()], or
    [s] is empty). *)
Fixpoint all_space (s : string) : bool :=
  match s with
  | EmptyString => true
  | String a s1 =>
      if is_space a then all_space s1
      else
        match s1 with
        | EmptyString => false
        | String b s2 =>
            if is_space2 a b then all_space s2
            else
              match s2 with
              | EmptyString => false
              | String c s3 => if is_space3 a b c then all_space s3 else false
              end
        end
  end.

(** [s.rstrip()]: [s] without the white space at its end. *)
Fixpoint rstrip (s : string) : string :=
  match s with
  | EmptyString => EmptyString
  | String c s' => if all_space s then EmptyString else String c (rstrip s')
  end.

(** The line feed of ["\n"]. *)
Definition nl : string := String (ascii_of_nat 10) EmptyString.

(** [str(n)] for a length. *)
Definition str_of_nat (n : nat) : string := pretty n.

(** [sorted(set(xs))]: the set drops the repetitions, [sorted] orders what
    is left; the result does not depend on the order the set is walked. *)
Definition sorted_set (xs : list string) : list string :=
  merge_sort String.le (remove_dups xs).

(** A [for x in xs: acc.append(f x)] loop. *)
Definition for_append {A B} (f : A → B) (xs : list A) (acc : list B) : list B :=
  fold_left (λ acc x, acc ++ [f x]) xs acc.

(** A [for x in xs: if p x: acc.append(f x)] loop. *)
Definition for_append_if {A B} (p : A → bool) (f : A → B)
    (xs : list A) (acc : list B) : list B :=
  fold_left (λ acc x, if p x then acc ++ [f x] else acc) xs acc.

End Py.

(** [s.lower()]: Python's lower-casing of a string, taken as it is.  Of
    the function only this is used: the empty string stays empty. *)
Class StrLower : Type := mkStrLower {
  str_lower : string → string;
  str_lower_empty : str_lower "" = ""
}.

(** ** [xml.etree.ElementTree] elements *)

Module ET.

(** An element: its tag, its attribute dictionary and its child elements
    in document order. *)
Inductive Element : Type :=
  mkElement {
    tag : string;
    attrib : gmap string string;
    children : list Element
  }.

(** [el.get(key)] *)
Definition get (el : Element) (key : string) : option string :=
  attrib el !! key.

(** [el.get(key, dflt)] *)
Definition get_or (el : Element) (key dflt : string) : string :=
  default dflt (attrib el !! key).

(** [el.findall(name)] for a plain tag name: the direct children with
    that tag, in document order. *)
Definition findall (el : Element) (name : string) : list Element :=
  filter (λ c, tag c = name) (children el).

(** [el.find(name)]: the first such child, if any. *)
Definition find (el : Element) (name : string) : option Element :=
  head (findall el name).

End ET.

Import ET.

(** ** The parser: type resolution *)

(** [el.get("list") == "yes"] *)
Definition list_flag (el : Element) : bool :=
  bool_decide (get el "list" = Some "yes").

(** [SDEFParser._resolve_type] *)
Definition _resolve_type (el : Element) : string :=
  if Py.truthy_opt (get el "type") then
    let t := get_or el "type" "any" in
    let t := if list_flag el then "list of " +:+ t else t in
    t
  else
    let type_els := findall el "type" in
    match type_els with
    | _ :: _ =>
        let parts :=
          Py.for_append
            (λ t, let name := get_or t "type" "any" in
                  let name := if list_flag t then "list of " +:+ name else name in
                  name)
            type_els [] in
        Py.join " | " parts
    | [] => "any"
    end.

(** ** The data model

    The dictionaries the parser builds have fixed key sets; each becomes a
    record whose fields carry the dictionary's keys. *)

(** [cmd["direct_parameter"]] *)
Record DirectParameter : Type := mkDirectParameter {
  dp_type : string;
  dp_description : string;
  dp_optional : bool
}.

(** An entry of [cmd["parameters"]] *)
Record CmdParameter : Type := mkCmdParameter {
  param_name : string;
  param_code : string;
  param_type : string;
  param_description : string;
  param_optional : bool
}.

(** [cmd["result"]] *)
Record Result : Type := mkResult {
  res_type : string;
  res_description : string
}.

Record Command : Type := mkCommand {
  cmd_name : string;
  cmd_code : string;
  cmd_description : string;
  cmd_direct_parameter : option DirectParameter;
  cmd_parameters : list CmdParameter;
  cmd_result : option Result
}.

(** An entry of [cls["properties"]] *)
Record ClassProperty : Type := mkClassProperty {
  prop_name : string;
  prop_code : string;
  prop_type : string;
  prop_access : string;
  prop_description : string
}.

(** An entry of [cls["elements"]] *)
Record ClassElement : Type := mkClassElement {
  elem_type : string;
  elem_access : string
}.

Record ClassDef : Type := mkClassDef {
  cls_name : string;
  cls_code : string;
  cls_description : string;
  cls_inherits : string;
  cls_plural : string;
  cls_properties : list ClassProperty;
  cls_elements : list ClassElement;
  cls_responds_to : list string;
  cls_is_extension : bool
}.

(** An entry of [enum["values"]] *)
Record Enumerator : Type := mkEnumerator {
  val_name : string;
  val_code : string;
  val_description : string
}.

Record Enumeration : Type := mkEnumeration {
  enum_name : string;
  enum_code : string;
  enum_values : list Enumerator
}.

Record Suite : Type := mkSuite {
  suite_name : string;
  suite_code : string;
  suite_description : string;
  suite_commands : list Command;
  suite_classes : list ClassDef;
  suite_enumerations : list Enumeration
}.

(** The state of an [SDEFParser] object once [__init__] has returned. *)
Record SDEFParser : Type := mkSDEFParser {
  root : Element;
  title : string;
  suites : list Suite
}.

(** ** The parser: element parsers *)

(** [el.get("optional", "no") == "yes"] *)
Definition optional_flag (el : Element) : bool :=
  bool_decide (get_or el "optional" "no" = "yes").

(** [SDEFParser._parse_command] *)
Definition _parse_command (el : Element) : Command :=
  let direct_parameter :=
    match find el "direct-parameter" with
    | Some dp =>
        Some {| dp_type := _resolve_type dp;
                dp_description := get_or dp "description" "";
                dp_optional := optional_flag dp |}
    | None => None
    end in
  let parameters :=
    Py.for_append
      (λ p, {| param_name := get_or p "name" "";
               param_code := get_or p "code" "";
               param_type := _resolve_type p;
               param_description := get_or p "description" "";
               param_optional := optional_flag p |})
      (findall el "parameter") [] in
  let result :=
    match find el "result" with
    | Some res =>
        Some {| res_type := _resolve_type res;
                res_description := get_or res "description" "" |}
    | None => None
    end in
  {| cmd_name := get_or el "name" "";
     cmd_code := get_or el "code" "";
     cmd_description := get_or el "description" "";
     cmd_direct_parameter := direct_parameter;
     cmd_parameters := parameters;
     cmd_result := result |}.

(** [rt.get("command", "") or rt.get("name", "")] *)
Definition responds_to_name (rt : Element) : string :=
  Py.or_ (get_or rt "command" "") (get_or rt "name" "").

(** [SDEFParser._parse_class] *)
Definition _parse_class (el : Element) : ClassDef :=
  let properties :=
    Py.for_append
      (λ p, {| prop_name := get_or p "name" "";
               prop_code := get_or p "code" "";
               prop_type := _resolve_type p;
               prop_access := get_or p "access" "rw";
               prop_description := get_or p "description" "" |})
      (findall el "property") [] in
  let elements :=
    Py.for_append
      (λ e, {| elem_type := _resolve_type e;
               elem_access := get_or e "access" "rw" |})
      (findall el "element") [] in
  let responds_to :=
    Py.for_append_if
      (λ rt, Py.truthy (responds_to_name rt))
      responds_to_name
      (findall el "responds-to") [] in
  {| cls_name := get_or el "name" "";
     cls_code := get_or el "code" "";
     cls_description := get_or el "description" "";
     cls_inherits := get_or el "inherits" "";
     cls_plural := get_or el "plural" "";
     cls_properties := properties;
     cls_elements := elements;
     cls_responds_to := responds_to;
     cls_is_extension := false |}.

(** [cls["is_extension"] = True] *)
Definition mark_extension (cls : ClassDef) : ClassDef :=
  {| cls_name := cls_name cls;
     cls_code := cls_code cls;
     cls_description := cls_description cls;
     cls_inherits := cls_inherits cls;
     cls_plural := cls_plural cls;
     cls_properties := cls_properties cls;
     cls_elements := cls_elements cls;
     cls_responds_to := cls_responds_to cls;
     cls_is_extension := true |}.

(** [SDEFParser._parse_enum] *)
Definition _parse_enum (el : Element) : Enumeration :=
  let values :=
    Py.for_append
      (λ v, {| val_name := get_or v "name" "";
               val_code := get_or v "code" "";
               val_description := get_or v "description" "" |})
      (findall el "enumerator") [] in
  {| enum_name := get_or el "name" "";
     enum_code := get_or el "code" "";
     enum_values := values |}.

(** [SDEFParser._parse]: the suites of the document under [root], built
    suite by suite; inside a suite the four loops run one after the other,
    each over the children of one tag. *)
Definition _parse (root : Element) : list Suite :=
  fold_left
    (λ suites suite_el,
       let commands :=
         Py.for_append _parse_command (findall suite_el "command") [] in
       let classes :=
         Py.for_append _parse_class (findall suite_el "class") [] in
       let classes :=
         Py.for_append (λ ext_el, mark_extension (_parse_class ext_el))
           (findall suite_el "class-extension") classes in
       let enumerations :=
         Py.for_append _parse_enum (findall suite_el "enumeration") [] in
       suites ++ [ {| suite_name := get_or suite_el "name" "";
                      suite_code := get_or suite_el "code" "";
                      suite_description := get_or suite_el "description" "";
                      suite_commands := commands;
                      suite_classes := classes;
                      suite_enumerations := enumerations |} ])
    (findall root "suite") [].

(** What a Python call can raise here. *)
Inductive Exception : Type :=
| ValueError (msg : string)
| KeyError (key : string)
| HostError (msg : string).

(** [SDEFParser.__init__], given [ET.fromstring] as a function that either
    reports a [ParseError] message or returns the root element. *)
Definition SDEFParser_init (fromstring : string → string + Element)
    (xml_string : string) : Exception + SDEFParser :=
  match fromstring xml_string with
  | inl e => inl (ValueError ("Malformed SDEF XML: " +:+ e))
  | inr root_el =>
      inr {| root := root_el;
             title := get_or root_el "title" "";
             suites := _parse root_el |}
  end.

(** ** The host and the parser cache

    [_find_app_path] and [_get_sdef_xml] run [mdfind], look at the file
    system and run [sdef]; [ET.fromstring] is the XML library.  They are the
    host a call runs against.  A later call may meet a different host: an
    application gets installed, [sdef] stops failing. *)
Record Host : Type := mkHost {
  _find_app_path : string → option string;
  _get_sdef_xml : string → Exception + string;
  ET_fromstring : string → string + Element
}.

(** A call made to the host. *)
Inductive HostCall : Type :=
| FindAppPath (name : string)
| GetSdefXml (app_path : string).

(** The process state a tool call reads and writes: the module level
    dictionary [_sdef_cache], and the host calls made so far, oldest first. *)
Record World : Type := mkWorld {
  _sdef_cache : gmap string SDEFParser;
  host_calls : list HostCall
}.

(** A computation that reads and writes the process state and either
    returns or raises; what it changed before raising stays changed. *)
Definition M (A : Type) : Type := World → (Exception + A) * World.

#[global] Instance M_ret : MRet M := λ A x w, (inr x, w).

#[global] Instance M_bind : MBind M := λ A B f m w,
  match m w with
  | (inl e, w') => (inl e, w')
  | (inr x, w') => f x w'
  end.

(** [raise e] *)
Definition raise {A} (e : Exception) : M A := λ w, (inl e, w).

(** [key not in _sdef_cache] *)
Definition cache_misses (key : string) : M bool :=
  λ w, (inr (bool_decide (_sdef_cache w !! key = None)), w).

(** [_sdef_cache[key] = parser] *)
Definition cache_store (key : string) (parser : SDEFParser) : M unit :=
  λ w, (inr tt, {| _sdef_cache := <[key := parser]> (_sdef_cache w);
                   host_calls := host_calls w |}).

(** [_sdef_cache[key]] *)
Definition cache_fetch (key : string) : M SDEFParser :=
  λ w, match _sdef_cache w !! key with
       | Some parser => (inr parser, w)
       | None => (inl (KeyError key), w)
       end.

(** A call of [_find_app_path]. *)
Definition call_find_app_path (h : Host) (name : string) : M (option string) :=
  λ w, (inr (_find_app_path h name),
        {| _sdef_cache := _sdef_cache w;
           host_calls := host_calls w ++ [FindAppPath name] |}).

(** A call of [_get_sdef_xml]. *)
Definition call_get_sdef_xml (h : Host) (app_path : string) : M string :=
  λ w, (_get_sdef_xml h app_path,
        {| _sdef_cache := _sdef_cache w;
           host_calls := host_calls w ++ [GetSdefXml app_path] |}).

(** A call of the [SDEFParser] constructor. *)
Definition call_SDEFParser (h : Host) (xml : string) : M SDEFParser :=
  λ w, (SDEFParser_init (ET_fromstring h) xml, w).

(** [_get_parser] *)
Definition _get_parser (h : Host) (app_name : string) : M SDEFParser :=
  miss ← cache_misses app_name;
  _ ← (if miss : bool then
         app_path ← call_find_app_path h app_name;
         match app_path with
         | Some (String c p) =>
             xml ← call_get_sdef_xml h (String c p);
             parser ← call_SDEFParser h xml;
             cache_store app_name parser
         | _ =>
             raise (ValueError ("App '" +:+ app_name +:+ "' not found. "
                     +:+ "Use list_scriptable_apps() to see available apps."))
         end
       else mret tt);
  cache_fetch app_name.

(** ** Formatters *)

(** [_fmt_command_signature] *)
Definition _fmt_command_signature (cmd : Command) : string :=
  let parts := [cmd_name cmd] in
  let parts :=
    match cmd_direct_parameter cmd with
    | Some dp =>
        let opt := if dp_optional dp then "?" else "" in
        parts ++ ["<" +:+ dp_type dp +:+ opt +:+ ">"]
    | None => parts
    end in
  let parts :=
    Py.for_append
      (λ p, let opt := if param_optional p then "?" else "" in
            param_name p +:+ ":" +:+ param_type p +:+ opt)
      (cmd_parameters cmd) parts in
  let parts :=
    match cmd_result cmd with
    | Some res => parts ++ ["→ " +:+ res_type res]
    | None => parts
    end in
  let desc :=
    if Py.truthy (cmd_description cmd)
    then "  // " +:+ cmd_description cmd else "" in
  Py.join " " parts +:+ desc.

(** The line [_fmt_suite_detail] writes for one class. *)
Definition suite_class_line (cls : ClassDef) : string :=
  let inh :=
    if Py.truthy (cls_inherits cls) then " : " +:+ cls_inherits cls else "" in
  let ext := if cls_is_extension cls then " [ext]" else "" in
  let desc :=
    if Py.truthy (cls_description cls)
    then " — " +:+ cls_description cls else "" in
  "  " +:+ cls_name cls +:+ inh +:+ ext
  +:+ " (" +:+ Py.str_of_nat (length (cls_properties cls)) +:+ "p "
  +:+ Py.str_of_nat (length (cls_elements cls)) +:+ "e)"
  +:+ desc.

(** [" | ".join(v["name"] for v in enum["values"])] *)
Definition enum_value_names (enum : Enumeration) : string :=
  Py.join " | " (map val_name (enum_values enum)).

(** [_fmt_suite_detail] *)
Definition _fmt_suite_detail (suite : Suite) : string :=
  let lines := ["═══ " +:+ suite_name suite +:+ " ═══"] in
  let lines :=
    if Py.truthy (suite_description suite)
    then lines ++ [suite_description suite] else lines in
  let lines := lines ++ [""] in
  let lines :=
    if Py.truthy_list (suite_commands suite) then
      let lines := lines ++ ["COMMANDS:"] in
      let lines :=
        Py.for_append (λ cmd, "  " +:+ _fmt_command_signature cmd)
          (suite_commands suite) lines in
      lines ++ [""]
    else lines in
  let lines :=
    if Py.truthy_list (suite_classes suite) then
      let lines := lines ++ ["CLASSES:"] in
      let lines := Py.for_append suite_class_line (suite_classes suite) lines in
      lines ++ [""]
    else lines in
  let lines :=
    if Py.truthy_list (suite_enumerations suite) then
      let lines := lines ++ ["ENUMS:"] in
      let lines :=
        Py.for_append
          (λ enum, "  " +:+ enum_name enum +:+ ": " +:+ enum_value_names enum)
          (suite_enumerations suite) lines in
      lines ++ [""]
    else lines in
  Py.rstrip (Py.join Py.nl lines).

(** The first line of a detail block: the heading, and the suite when one
    is given. *)
Definition detail_header (kind name suite_name : string) : string :=
  let header := kind +:+ ": " +:+ name in
  if Py.truthy suite_name
  then header +:+ "  [" +:+ suite_name +:+ "]" else header.

(** [_fmt_command_detail] *)
Definition _fmt_command_detail (cmd : Command) (suite_name : string) : string :=
  let lines := [detail_header "COMMAND" (cmd_name cmd) suite_name] in
  let lines :=
    if Py.truthy (cmd_description cmd)
    then lines ++ ["  " +:+ cmd_description cmd] else lines in
  let lines :=
    match cmd_direct_parameter cmd with
    | Some dp =>
        let opt := if dp_optional dp then " [optional]" else "" in
        let lines := lines ++ ["  Direct param: " +:+ dp_type dp +:+ opt] in
        if Py.truthy (dp_description dp)
        then lines ++ ["    " +:+ dp_description dp] else lines
    | None => lines
    end in
  let lines :=
    if Py.truthy_list (cmd_parameters cmd) then
      let lines := lines ++ ["  Params:"] in
      Py.for_append
        (λ p, let opt := if param_optional p then " [optional]" else "" in
              let desc :=
                if Py.truthy (param_description p)
                then " — " +:+ param_description p else "" in
              "    " +:+ param_name p +:+ ": " +:+ param_type p +:+ opt +:+ desc)
        (cmd_parameters cmd) lines
    else lines in
  let lines :=
    match cmd_result cmd with
    | Some res =>
        let desc :=
          if Py.truthy (res_description res)
          then " — " +:+ res_description res else "" in
        lines ++ ["  Returns: " +:+ res_type res +:+ desc]
    | None => lines
    end in
  Py.join Py.nl lines.

(** The lines of [_fmt_class_detail], before they are joined. *)
Definition class_detail_lines (cls : ClassDef) (suite_name : string) : list string :=
  let lines := [detail_header "CLASS" (cls_name cls) suite_name] in
  let lines :=
    if Py.truthy (cls_inherits cls)
    then lines ++ ["  Inherits: " +:+ cls_inherits cls] else lines in
  let lines :=
    if Py.truthy (cls_plural cls)
    then lines ++ ["  Plural: " +:+ cls_plural cls] else lines in
  let lines :=
    if cls_is_extension cls then lines ++ ["  (class extension)"] else lines in
  let lines :=
    if Py.truthy (cls_description cls)
    then lines ++ ["  " +:+ cls_description cls] else lines in
  let lines :=
    if Py.truthy_list (cls_properties cls) then
      let lines := lines ++ ["  Properties:"] in
      Py.for_append
        (λ p, let acc :=
                if bool_decide (prop_access p ≠ "rw")
                then " [" +:+ prop_access p +:+ "]" else "" in
              let desc :=
                if Py.truthy (prop_description p)
                then " — " +:+ prop_description p else "" in
              "    " +:+ prop_name p +:+ ": " +:+ prop_type p +:+ acc +:+ desc)
        (cls_properties cls) lines
    else lines in
  let lines :=
    if Py.truthy_list (cls_elements cls) then
      let elems := Py.join ", " (map elem_type (cls_elements cls)) in
      lines ++ ["  Elements: " +:+ elems]
    else lines in
  let lines :=
    if Py.truthy_list (cls_responds_to cls)
    then lines ++ ["  Responds to: " +:+ Py.join ", " (cls_responds_to cls)]
    else lines in
  lines.

(** [_fmt_class_detail] *)
Definition _fmt_class_detail (cls : ClassDef) (suite_name : string) : string :=
  Py.join Py.nl (class_detail_lines cls suite_name).

(** [_fmt_enum_detail] *)
Definition _fmt_enum_detail (enum : Enumeration) (suite_name : string) : string :=
  let lines := [detail_header "ENUM" (enum_name enum) suite_name] in
  let lines :=
    Py.for_append
      (λ v, let desc :=
              if Py.truthy (val_description v)
              then " — " +:+ val_description v else "" in
            "  " +:+ val_name v +:+ desc)
      (enum_values enum) lines in
  Py.join Py.nl lines.

(** ** Tools

    Every tool first obtains the parser with [_get_parser] and then computes
    its answer from the parser alone; the answer is given here as a function
    of the parser, and the tool runs it after [_get_parser]. *)

(** [a.lower() == b.lower()] *)
Definition same_name {L : StrLower} (a b : string) : bool :=
  String.eqb (str_lower a) (str_lower b).

(** The loop of [get_suite_detail]: it returns from inside at the first
    suite whose name matches, and falls out at the end of the list. *)
Fixpoint suite_detail_loop {L : StrLower} (suite_name' : string)
    (rest : list Suite) : option string :=
  match rest with
  | [] => None
  | suite :: rest' =>
      if same_name (suite_name suite) suite_name'
      then Some (_fmt_suite_detail suite)
      else suite_detail_loop suite_name' rest'
  end.

(** [get_suite_detail], after the parser is there. *)
Definition suite_detail_text {L : StrLower} (parser : SDEFParser)
    (suite_name' : string) : string :=
  match suite_detail_loop suite_name' (suites parser) with
  | Some text => text
  | None =>
      let available := Py.join ", " (map suite_name (suites parser)) in
      "Suite '" +:+ suite_name' +:+ "' not found. Available: " +:+ available
  end.

(** [get_suite_detail] *)
Definition get_suite_detail {L : StrLower} (h : Host)
    (app_name suite_name' : string) : M string :=
  parser ← _get_parser h app_name;
  mret (suite_detail_text parser suite_name').

(** The list [results] of [get_command] when its loops are done. *)
Definition command_results {L : StrLower} (parser : SDEFParser)
    (command_name : string) : list string :=
  fold_left
    (λ results suite,
       Py.for_append_if
         (λ cmd, same_name (cmd_name cmd) command_name)
         (λ cmd, _fmt_command_detail cmd (suite_name suite))
         (suite_commands suite) results)
    (suites parser) [].

(** The list [all_cmds] of [get_command]. *)
Definition all_cmds (parser : SDEFParser) : list string :=
  Py.sorted_set
    (flat_map (λ suite, map cmd_name (suite_commands suite)) (suites parser)).

(** [get_command], after the parser is there. *)
Definition command_text {L : StrLower} (parser : SDEFParser)
    (command_name : string) : string :=
  let results := command_results parser command_name in
  if Py.truthy_list results then Py.join (Py.nl +:+ Py.nl) results
  else
    "Command '" +:+ command_name +:+ "' not found." +:+ Py.nl
    +:+ "Available: " +:+ Py.join ", " (all_cmds parser).

(** [get_command] *)
Definition get_command {L : StrLower} (h : Host)
    (app_name command_name : string) : M string :=
  parser ← _get_parser h app_name;
  mret (command_text parser command_name).

(** The list [results] of [get_class] when its loops are done. *)
Definition class_results {L : StrLower} (parser : SDEFParser)
    (class_name : string) : list string :=
  fold_left
    (λ results suite,
       Py.for_append_if
         (λ cls, same_name (cls_name cls) class_name)
         (λ cls, _fmt_class_detail cls (suite_name suite))
         (suite_classes suite) results)
    (suites parser) [].

(** The list [all_classes] of [get_class]. *)
Definition all_classes (parser : SDEFParser) : list string :=
  Py.sorted_set
    (flat_map (λ suite, map cls_name (suite_classes suite)) (suites parser)).

(** [get_class], after the parser is there. *)
Definition class_text {L : StrLower} (parser : SDEFParser) (class_name : string)
    : string :=
  let results := class_results parser class_name in
  if Py.truthy_list results then Py.join (Py.nl +:+ Py.nl) results
  else
    "Class '" +:+ class_name +:+ "' not found." +:+ Py.nl
    +:+ "Available: " +:+ Py.join ", " (all_classes parser).

(** [get_class] *)
Definition get_class {L : StrLower} (h : Host) (app_name class_name : string) :
    M string :=
  parser ← _get_parser h app_name;
  mret (class_text parser class_name).

(** The list [results] of [get_enumeration] when its loops are done. *)
Definition enumeration_results {L : StrLower} (parser : SDEFParser)
    (enum_name' : string) : list string :=
  fold_left
    (λ results suite,
       Py.for_append_if
         (λ enum, same_name (enum_name enum) enum_name')
         (λ enum, _fmt_enum_detail enum (suite_name suite))
         (suite_enumerations suite) results)
    (suites parser) [].

(** The list [all_enums] of [get_enumeration]. *)
Definition all_enums (parser : SDEFParser) : list string :=
  Py.sorted_set
    (flat_map (λ suite, map enum_name (suite_enumerations suite))
       (suites parser)).

(** [get_enumeration], after the parser is there. *)
Definition enumeration_text {L : StrLower} (parser : SDEFParser)
    (enum_name' : string) : string :=
  let results := enumeration_results parser enum_name' in
  if Py.truthy_list results then Py.join (Py.nl +:+ Py.nl) results
  else
    "Enum '" +:+ enum_name' +:+ "' not found." +:+ Py.nl
    +:+ "Available: " +:+ Py.join ", " (all_enums parser).

(** [get_enumeration] *)
Definition get_enumeration {L : StrLower} (h : Host)
    (app_name enum_name' : string) : M string :=
  parser ← _get_parser h app_name;
  mret (enumeration_text parser enum_name').

(** *** [search_dictionary]

    [q] is the query in lower case and [sn] the name of the suite the loop
    is in. *)

(** [q in name.lower() or q in (description or "").lower()] *)
Definition text_matches {L : StrLower} (q name description : string) : bool :=
  Py.contains q (str_lower name)
  || Py.contains q (str_lower (Py.or_ description "")).

(** The hit line of a command. *)
Definition cmd_hit (sn : string) (cmd : Command) : string :=
  "  CMD  [" +:+ sn +:+ "] " +:+ _fmt_command_signature cmd.

(** The hit line of a class. *)
Definition cls_hit (sn : string) (cls : ClassDef) : string :=
  let inh :=
    if Py.truthy (cls_inherits cls) then " : " +:+ cls_inherits cls else "" in
  "  CLS  [" +:+ sn +:+ "] " +:+ cls_name cls +:+ inh
  +:+ " (" +:+ Py.str_of_nat (length (cls_properties cls)) +:+ "p "
  +:+ Py.str_of_nat (length (cls_elements cls)) +:+ "e)".

(** The hit line of a property of a class. *)
Definition prop_hit (sn : string) (cls : ClassDef) (prop : ClassProperty) : string :=
  let acc :=
    if bool_decide (prop_access prop ≠ "rw")
    then " [" +:+ prop_access prop +:+ "]" else "" in
  "  PROP [" +:+ sn +:+ "] " +:+ cls_name cls +:+ "." +:+ prop_name prop
  +:+ ": " +:+ prop_type prop +:+ acc.

(** The hit line of an enumeration: its name and all its values. *)
Definition enum_hit (sn : string) (enum : Enumeration) : string :=
  "  ENUM [" +:+ sn +:+ "] " +:+ enum_name enum +:+ ": "
  +:+ enum_value_names enum.

(** The hit line of one value of an enumeration. *)
Definition val_hit (sn : string) (enum : Enumeration) (v : Enumerator) : string :=
  "  VAL  [" +:+ sn +:+ "] " +:+ enum_name enum +:+ "." +:+ val_name v
  +:+ (if Py.truthy (val_description v)
       then " — " +:+ val_description v else "").

(** The body of the loop over the classes of a suite. *)
Definition class_step {L : StrLower} (q sn : string) (hits : list string)
    (cls : ClassDef) : list string :=
  let hits :=
    if text_matches q (cls_name cls) (cls_description cls)
    then hits ++ [cls_hit sn cls] else hits in
  Py.for_append_if
    (λ prop, text_matches q (prop_name prop) (prop_description prop))
    (prop_hit sn cls)
    (cls_properties cls) hits.

(** The body of the loop over the enumerations of a suite. *)
Definition enum_step {L : StrLower} (q sn : string) (hits : list string)
    (enum : Enumeration) : list string :=
  if Py.contains q (str_lower (enum_name enum))
  then hits ++ [enum_hit sn enum]
  else
    Py.for_append_if
      (λ v, Py.contains q (str_lower (val_name v)))
      (val_hit sn enum)
      (enum_values enum) hits.

(** The body of the loop over the suites. *)
Definition suite_step {L : StrLower} (q : string) (hits : list string)
    (suite : Suite) : list string :=
  let sn := suite_name suite in
  let hits :=
    Py.for_append_if
      (λ cmd, text_matches q (cmd_name cmd) (cmd_description cmd))
      (cmd_hit sn)
      (suite_commands suite) hits in
  let hits := fold_left (class_step q sn) (suite_classes suite) hits in
  let hits := fold_left (enum_step q sn) (suite_enumerations suite) hits in
  hits.

(** The list [hits] of [search_dictionary] when its loops are done. *)
Definition search_hits {L : StrLower} (parser : SDEFParser) (query : string) :
    list string :=
  let q := str_lower query in
  fold_left (suite_step q) (suites parser) [].

(** [search_dictionary], after the parser is there. *)
Definition search_text {L : StrLower} (parser : SDEFParser)
    (app_name query : string) : string :=
  let hits := search_hits parser query in
  if negb (Py.truthy_list hits) then
    "No results for '" +:+ query +:+ "' in " +:+ app_name +:+ "'s dictionary."
  else
    "Search '" +:+ query +:+ "' in " +:+ app_name
    +:+ " (" +:+ Py.str_of_nat (length hits) +:+ " hits):" +:+ Py.nl
    +:+ Py.join Py.nl hits.

(** [search_dictionary] *)
Definition search_dictionary {L : StrLower} (h : Host) (app_name query : string)
    : M string :=
  parser ← _get_parser h app_name;
  mret (search_text parser app_name query).

(** ** The words of the specification *)

(** Rule 1: what a [type] attribute [t] on [el] stands for, with the
    element's own list flag. *)
Definition rule1 (el : Element) (t : string) : string :=
  if list_flag el then "list of " +:+ t else t.

(** The element carries no usable inline type: the attribute is absent or
    empty. *)
Definition no_inline_type (el : Element) : Prop :=
  get el "type" = None ∨ get el "type" = Some "".

(** The class and class-extension declarations of a suite element, in the
    order they occur in the document. *)
Definition class_declarations (suite_el : Element) : list Element :=
  filter (λ c, tag c = "class" ∨ tag c = "class-extension") (children suite_el).

(** [query] occurs in [name] once both are through [str.lower]. *)
Definition ci_substring {L : StrLower} (query name : string) : Prop :=
  ∃ pre post, str_lower name = pre +:+ str_lower query +:+ post.

(** [query] occurs in the name or in the description, all through
    [str.lower]. *)
Definition ci_in_text {L : StrLower} (query name description : string) : Prop :=
  ci_substring query name ∨ ci_substring query description.

(** The requests a session makes one after the other, each against the
    host of its moment; what is left is the process state after them. *)
Definition run_requests (requests : list (Host * string)) (w : World) : World :=
  fold_left (λ w r, (_get_parser r.1 r.2 w).2) requests w.

(** ** Sample documents *)

(** [str.lower] on ASCII text; the samples are ASCII and run with it. *)
Definition ascii_lower : StrLower :=
  {| str_lower := Py.lower; str_lower_empty := eq_refl |}.

(** An element written with its attributes as a list of pairs. *)
Definition node (t : string) (attrs : list (string * string))
    (kids : list Element) : Element :=
  mkElement t (list_to_map attrs) kids.

(** [<parameter name='to' type='text' list='yes'/>] *)
Definition param_inline : Element :=
  node "parameter" [("name", "to"); ("type", "text"); ("list", "yes")] [].

(** A property that gives its type by two descriptors:
    [<property name='path'><type type='text'/><type type='file' list='yes'/></property>] *)
Definition prop_nested : Element :=
  node "property" [("name", "path")]
    [ node "type" [("type", "text")] [];
      node "type" [("type", "file"); ("list", "yes")] [] ].

(** [<result/>] *)
Definition result_bare : Element := node "result" [] [].

(** An empty inline attribute next to a descriptor:
    [<parameter name='to' type='' list='yes'><type type='text'/></parameter>] *)
Definition param_empty_inline : Element :=
  node "parameter" [("name", "to"); ("type", ""); ("list", "yes")]
    [ node "type" [("type", "text")] [] ].

(** A descriptor whose attribute is empty:
    [<parameter name='to'><type type=''/></parameter>] *)
Definition param_empty_descriptor : Element :=
  node "parameter" [("name", "to")] [ node "type" [("type", "")] [] ].

(** A document whose only command takes that parameter. *)
Definition doc_empty_descriptor : Element :=
  node "dictionary" [("title", "Demo")]
    [ node "suite" [("name", "Demo Suite")]
        [ node "command" [("name", "send")] [ param_empty_descriptor ] ] ].

(** A suite that declares an extension of [window] before the class
    [document]. *)
Definition doc_extension_first : Element :=
  node "dictionary" [("title", "Demo")]
    [ node "suite" [("name", "Demo Suite")]
        [ node "class-extension" [("name", "window")] [];
          node "class" [("name", "document")] [] ] ].

(** A small dictionary: one suite with a command, a class, an extension of
    that class under the same name in another letter case, and an
    enumeration; and a second suite whose name repeats the first in lower
    case. *)
Definition doc_demo : Element :=
  node "dictionary" [("title", "Demo")]
    [ node "suite" [("name", "Standard Suite"); ("description", "Common terms")]
        [ node "command" [("name", "close"); ("description", "Close a document.")]
            [ node "direct-parameter" [("type", "specifier")] [];
              node "parameter"
                [("name", "saving"); ("type", "save options"); ("optional", "yes")]
                [] ];
          node "class" [("name", "document"); ("description", "A document.")]
            [ node "property" [("name", "name"); ("type", "text"); ("access", "r")] [] ];
          node "class-extension" [("name", "Document")]
            [ node "property"
                [("name", "path"); ("type", "file");
                 ("description", "Where the document is saved.")] [] ];
          node "class" [("name", "window")]
            [ node "property"
                [("name", "bounds"); ("type", "rectangle");
                 ("description", "The frame of the window.")] [] ];
          node "enumeration" [("name", "save options")]
            [ node "enumerator" [("name", "yes")] [];
              node "enumerator" [("name", "no")] [];
              node "enumerator" [("name", "ask"); ("description", "Ask the user.")] [] ] ];
      node "suite" [("name", "standard suite")]
        [ node "command" [("name", "quit")] [] ] ].

(** The parser object [SDEFParser] builds from [doc_demo]. *)
Definition parser_demo : SDEFParser :=
  {| root := doc_demo; title := "Demo"; suites := _parse doc_demo |}.

(** A host on which the application [Demo] is installed and scriptable. *)
Definition host_demo : Host :=
  {| _find_app_path := λ name,
       if String.eqb name "Demo" then Some "/Applications/Demo.app" else None;
     _get_sdef_xml := λ app_path, inr "<dictionary title='Demo'/>";
     ET_fromstring := λ xml, inr doc_demo |}.

(** A host on which no application is found. *)
Definition host_bare : Host :=
  {| _find_app_path := λ name, None;
     _get_sdef_xml := λ app_path, inl (HostError "sdef: no such file");
     ET_fromstring := λ xml, inl "no element found" |}.

(** The process state at start. *)
Definition world_start : World :=
  {| _sdef_cache := ∅; host_calls := [] |}.

(** The process state once [Demo] has been loaded from [host_demo]. *)
Definition world_demo : World :=
  {| _sdef_cache := {[ "Demo" := parser_demo ]};
     host_calls := [FindAppPath "Demo"; GetSdefXml "/Applications/Demo.app"] |}.

(** The first suite of [parser_demo], and in it the class [document], the
    extension [Document], the class [window] and the enumeration
    [save options]. *)
Definition suite_none : Suite :=
  {| suite_name := ""; suite_code := ""; suite_description := "";
     suite_commands := []; suite_classes := []; suite_enumerations := [] |}.

Definition class_none : ClassDef :=
  {| cls_name := ""; cls_code := ""; cls_description := "";
     cls_inherits := ""; cls_plural := ""; cls_properties := [];
     cls_elements := []; cls_responds_to := []; cls_is_extension := false |}.

Definition enum_none : Enumeration :=
  {| enum_name := ""; enum_code := ""; enum_values := [] |}.

Definition suite_standard : Suite := List.hd suite_none (suites parser_demo).

Definition class_document : ClassDef :=
  List.nth 0 (suite_classes suite_standard) class_none.

Definition class_window : ClassDef :=
  List.nth 1 (suite_classes suite_standard) class_none.

Definition class_document_ext : ClassDef :=
  List.nth 2 (suite_classes suite_standard) class_none.

Definition enum_save_options : Enumeration :=
  List.nth 0 (suite_enumerations suite_standard) enum_none.

(** ** More of Python's strings and paths *)

Module PyStr.

(** [s.lstrip()]: [s] without the white space at its start. *)
Fixpoint lstrip (s : string) : string :=
  match s with
  | EmptyString => EmptyString
  | String a s1 =>
      if Py.is_space a then lstrip s1
      else
        match s1 with
        | EmptyString => s
        | String b s2 =>
            if Py.is_space2 a b then lstrip s2
            else
              match s2 with
              | EmptyString => s
              | String c s3 => if Py.is_space3 a b c then lstrip s3 else s
              end
        end
  end.

(** [s.strip()] *)
Definition strip (s : string) : string := Py.rstrip (lstrip s).

(** [s.split("\n")]: the pieces between the line feeds; a string without
    line feed, the empty one too, is one piece. *)
Fixpoint split_lines (s : string) : list string :=
  match s with
  | EmptyString => [EmptyString]
  | String c s' =>
      if Ascii.eqb c (ascii_of_nat 10) then EmptyString :: split_lines s'
      else
        match split_lines s' with
        | piece :: pieces => String c piece :: pieces
        | [] => [String c EmptyString]
        end
  end.

(** [s.startswith(p)] *)
Definition startswith (s p : string) : bool := String.prefix p s.

(** [s.endswith("/")] *)
Fixpoint ends_with_slash (s : string) : bool :=
  match s with
  | EmptyString => false
  | String c EmptyString => Ascii.eqb c "/"
  | String _ s' => ends_with_slash s'
  end.

(** [os.path.join(a, b)] of [posixpath]. *)
Definition path_join (a b : string) : string :=
  if startswith b "/" then b
  else if negb (Py.truthy a) || ends_with_slash a then a +:+ b
  else a +:+ "/" +:+ b.

End PyStr.

(** ** App discovery

    What the two discovery functions and [list_scriptable_apps] ask of the
    operating system. *)

(** What [plistlib.load] makes of a bundle's [Contents/Info.plist]: the file
    is not there, reading it raises, or it gives a dictionary, of which the
    code asks whether it has the key [OSAScriptingDefinition] and whether
    its [NSAppleScriptEnabled] entry is true. *)
Inductive InfoPlist : Type :=
| NoInfoPlist
| BadInfoPlist
| InfoPlistDict (has_scripting_definition applescript_enabled : bool).

(** An entry of [base.glob("**/*.app")]: the stem of the path and the
    property list of the bundle. *)
Record AppBundle : Type := mkAppBundle {
  bundle_stem : string;
  bundle_info : InfoPlist
}.

(** What [subprocess.run(["sdef", app_path], ...)] returns. *)
Record Completed : Type := mkCompleted {
  returncode : Z;
  stdout : string;
  stderr : string
}.

Record OS : Type := mkOS {
  (** [subprocess.run(["mdfind", query], ...).stdout], or nothing when the
      call raises. *)
  run_mdfind : string → option string;
  (** [os.path.exists] and [Path.exists] *)
  path_exists : string → bool;
  (** [os.path.expanduser("~/Applications")] *)
  user_applications : string;
  (** [subprocess.run(["sdef", app_path], ...)], or what it raises. *)
  run_sdef : string → Exception + Completed;
  (** [sorted(Path(d).glob("**/*.app"))] *)
  glob_apps : string → list AppBundle
}.

Module Discovery.

(** The second argument of the [mdfind] call. *)
Definition mdfind_query (name : string) : string :=
  "kMDItemDisplayName == '" +:+ name +:+ "'"
  +:+ " && kMDItemContentType == 'com.apple.application-bundle'".

(** [[p.strip() for p in result.stdout.strip().split("\n") if p.strip()]] *)
Definition mdfind_paths (out : string) : list string :=
  map PyStr.strip
    (List.filter (λ p, Py.truthy (PyStr.strip p))
       (PyStr.split_lines (PyStr.strip out))).

(** The test of the loop that prefers the application directories. *)
Definition preferred (p : string) : bool :=
  PyStr.startswith p "/Applications"
  || PyStr.startswith p "/System/Applications".

(** The directories of the fallback loop, in its order. *)
Definition common_directories (os : OS) : list string :=
  ["/Applications"; "/System/Applications"; user_applications os].

(** [_find_app_path] *)
Definition _find_app_path (os : OS) (name : string) : option string :=
  let found :=
    match run_mdfind os (mdfind_query name) with
    | Some out =>
        let paths := mdfind_paths out in
        match paths with
        | first :: _ =>
            match List.find preferred paths with
            | Some p => Some p
            | None => Some first
            end
        | [] => None
        end
    | None => None
    end in
  match found with
  | Some p => Some p
  | None =>
      List.find (path_exists os)
        (map (λ base, PyStr.path_join base (name +:+ ".app"))
           (common_directories os))
  end.

(** [_get_sdef_xml] *)
Definition _get_sdef_xml (os : OS) (app_path : string) : Exception + string :=
  match run_sdef os app_path with
  | inl e => inl e
  | inr result =>
      if bool_decide (returncode result ≠ 0%Z) then
        inl (ValueError
               ("Could not get SDEF for " +:+ app_path +:+ ". "
                +:+ "The app may not be scriptable. stderr: "
                +:+ PyStr.strip (stderr result)))
      else inr (stdout result)
  end.

End Discovery.

(** The host the tools run against on a given operating system. *)
Definition host_on (os : OS) (fromstring : string → string + Element) : Host :=
  {| _find_app_path := Discovery._find_app_path os;
     _get_sdef_xml := Discovery._get_sdef_xml os;
     ET_fromstring := fromstring |}.

(** The test that puts a bundle on the list: its property list loads and
    has the key, or has the flag set. *)
Definition is_scriptable (app : AppBundle) : bool :=
  match bundle_info app with
  | InfoPlistDict has_definition enabled => has_definition || enabled
  | _ => false
  end.

(** [dirs_to_check] of [list_scriptable_apps] *)
Definition dirs_to_check (os : OS) (search_dir : string) : list string :=
  let dirs := [search_dir] in
  if String.eqb search_dir "/Applications"
  then (dirs ++ ["/System/Applications"]) ++ [user_applications os]
  else dirs.

(** The list [scriptable] of [list_scriptable_apps] when its loops are
    done. *)
Definition scriptable_stems (os : OS) (search_dir : string) : list string :=
  fold_left
    (λ scriptable d,
       if negb (path_exists os d) then scriptable
       else Py.for_append_if is_scriptable bundle_stem (glob_apps os d) scriptable)
    (dirs_to_check os search_dir) [].

(** [list_scriptable_apps] *)
Definition list_scriptable_apps (os : OS) (search_dir : string) : string :=
  let scriptable := scriptable_stems os search_dir in
  if negb (Py.truthy_list scriptable) then "No scriptable apps found."
  else
    let unique := Py.sorted_set scriptable in
    "Scriptable apps:" +:+ Py.nl
    +:+ Py.join Py.nl (map (λ app, "  " +:+ app) unique).

(** ** The overview tool *)

(** [_fmt_suites_overview] *)
Definition _fmt_suites_overview (parser : SDEFParser) : string :=
  let lines :=
    fold_left
      (λ lines s,
         let desc := Py.or_ (suite_description s) "—" in
         let lines := lines ++ ["■ " +:+ suite_name s] in
         let lines := lines ++ ["  " +:+ desc] in
         let lines :=
           lines ++ ["  " +:+ Py.str_of_nat (length (suite_commands s))
                     +:+ " commands · "
                     +:+ Py.str_of_nat (length (suite_classes s))
                     +:+ " classes · "
                     +:+ Py.str_of_nat (length (suite_enumerations s))
                     +:+ " enums"] in
         lines ++ [""])
      (suites parser) [] in
  Py.rstrip (Py.join Py.nl lines).

(** [get_app_suites], after the parser is there. *)
Definition app_suites_text (parser : SDEFParser) (app_name : string) : string :=
  let title' :=
    "Dictionary: " +:+ Py.or_ (title parser) app_name +:+ Py.nl +:+ Py.nl in
  title' +:+ _fmt_suites_overview parser.

(** [get_app_suites] *)
Definition get_app_suites (h : Host) (app_name : string) : M string :=
  parser ← _get_parser h app_name;
  mret (app_suites_text parser app_name).

(** ** Sample systems *)

(** A system where [mdfind] prints two bundles, the one under the user's
    directory first, and [sdef] works. *)
Definition os_demo : OS :=
  {| run_mdfind := λ query,
       if String.eqb query (Discovery.mdfind_query "Demo")
       then Some ("  /Users/me/Applications/Demo.app" +:+ Py.nl
                  +:+ Py.nl +:+ "/Applications/Demo.app  " +:+ Py.nl)
       else Some "";
     path_exists := λ p,
       String.eqb p "/Applications"
       || String.eqb p "/System/Applications"
       || String.eqb p "/System/Applications/Notes.app";
     user_applications := "/Users/me/Applications";
     run_sdef := λ app_path,
       inr {| returncode := 0; stdout := "<dictionary title='Demo'/>";
              stderr := "warning" |};
     glob_apps := λ d,
       if String.eqb d "/Applications"
       then [ {| bundle_stem := "Safari";
                 bundle_info := InfoPlistDict true false |};
              {| bundle_stem := "Demo";
                 bundle_info := InfoPlistDict false true |};
              {| bundle_stem := "Clock";
                 bundle_info := InfoPlistDict false false |};
              {| bundle_stem := "Broken"; bundle_info := BadInfoPlist |};
              {| bundle_stem := "Demo";
                 bundle_info := InfoPlistDict true true |} ]
       else [ {| bundle_stem := "Notes";
                 bundle_info := InfoPlistDict true false |} ] |}.

(** A system where [mdfind] cannot be run and [sdef] exits with code 1. *)
Definition os_bare : OS :=
  {| run_mdfind := λ query, None;
     path_exists := λ p, String.eqb p "/System/Applications/Notes.app";
     user_applications := "/Users/me/Applications";
     run_sdef := λ app_path,
       inr {| returncode := 1; stdout := "";
              stderr := "sdef: not scriptable" +:+ Py.nl |};
     glob_apps := λ d, [] |}.

(** A command element with two direct parameters and two results around
    its parameters. *)
Definition cmd_repeated : Element :=
  node "command" [("name", "move")]
    [ node "parameter" [("name", "to"); ("type", "location"); ("optional", "yes")] [];
      node "direct-parameter" [("type", "specifier")] [];
      node "result" [("type", "specifier")] [];
      node "direct-parameter" [("type", "text"); ("optional", "yes")] [];
      node "parameter" [("name", "with"); ("optional", "YES")] [];
      node "result" [("type", "boolean")] [] ].

(** A class element whose [responds-to] children name the command in one
    attribute, in the other, in both, or in none. *)
Definition cls_responds : Element :=
  node "class" [("name", "window")]
    [ node "responds-to" [("command", "close")] [];
      node "responds-to" [("name", "print")] [];
      node "responds-to" [] [];
      node "responds-to" [("command", ""); ("name", "save")] [];
      node "responds-to" [("command", "quit"); ("name", "exit")] [];
      node "responds-to" [("command", ""); ("name", "")] [] ].

(** [doc_demo] with text the parser does not read: another root tag, an
    event and a value type beside the suites, and a suite inside a suite. *)
Definition doc_noisy : Element :=
  mkElement "sdef" {[ "title" := "Noisy" ]}
    (node "value-type" [("name", "color")] []
     :: node "suite" [("name", "Outer")]
          [ node "suite" [("name", "Inner")] [];
            node "event" [("name", "opened")] [];
            node "command" [("name", "run")] [] ]
     :: children doc_demo).

(** ** More words for searches *)


(** A suite with nothing in it. *)
Definition suite_empty (name : string) : Suite :=
  {| suite_name := name; suite_code := ""; suite_description := "";
     suite_commands := []; suite_classes := []; suite_enumerations := [] |}.

(** * Properties *)

(** ** Loops *)

Lemma for_append_spec {A B} (f : A → B) (xs : list A) (acc : list B) :
  Py.for_append f xs acc = acc ++ map f xs.
Proof.
  unfold Py.for_append. revert acc.
  induction xs as [|x xs IH]; intros acc; simpl.
  - by rewrite app_nil_r.
  - rewrite IH, <- app_assoc. reflexivity.
Qed.

Lemma for_append_if_spec {A B} (p : A → bool) (f : A → B)
    (xs : list A) (acc : list B) :
  Py.for_append_if p f xs acc = acc ++ map f (List.filter p xs).
Proof.
  unfold Py.for_append_if. revert acc.
  induction xs as [|x xs IH]; intros acc; simpl.
  - by rewrite app_nil_r.
  - rewrite IH. destruct (p x); simpl; [|done].
    by rewrite <- app_assoc.
Qed.

(** A loop whose body appends to the list it threads contributes, for each
    item, what the body appends to the empty list. *)
Lemma fold_left_appending {A B} (step : list B → A → list B) (xs : list A)
    (acc : list B) :
  (∀ acc x, step acc x = acc ++ step [] x) →
  fold_left step xs acc = acc ++ flat_map (step []) xs.
Proof.
  intros Hstep. revert acc.
  induction xs as [|x xs IH]; intros acc; simpl.
  - by rewrite app_nil_r.
  - rewrite IH, (Hstep acc x), <- app_assoc. reflexivity.
Qed.

(** ** Type resolution *)

Lemma truthy_opt_some (t : string) : t ≠ "" → Py.truthy_opt (Some t) = true.
Proof. by destruct t. Qed.

Lemma no_inline_type_falsy (el : Element) :
  no_inline_type el → Py.truthy_opt (get el "type") = false.
Proof. by intros [-> | ->]. Qed.

(** C1, as the code has it: an inline [type] attribute that is present and
    not empty decides the type, with ["list of "] in front when the element
    is flagged as a list, whatever descriptors the element has; when the
    inline attribute is absent or empty and there are descriptors, the type
    is their resolutions joined with [" | "], a descriptor without an
    attribute counting as ["any"]; when it is absent or empty and there are
    no descriptors, the type is ["any"]. *)
Theorem resolve_type_order (el : Element) :
  (∀ t, get el "type" = Some t → t ≠ "" → _resolve_type el = rule1 el t)
  ∧ (no_inline_type el → findall el "type" ≠ [] →
     _resolve_type el =
       Py.join " | "
         (map (λ c, rule1 c (get_or c "type" "any")) (findall el "type")))
  ∧ (no_inline_type el → findall el "type" = [] → _resolve_type el = "any").
Proof.
  unfold _resolve_type. split; [|split].
  - intros t Ht Hne. rewrite Ht, (truthy_opt_some t Hne).
    unfold rule1, get_or. unfold get in Ht. by rewrite Ht.
  - intros Hno Hkids. rewrite (no_inline_type_falsy el Hno).
    destruct (findall el "type") as [|c cs] eqn:E; [done|].
    by rewrite for_append_spec.
  - intros Hno Hkids. rewrite (no_inline_type_falsy el Hno). by rewrite Hkids.
Qed.

Lemma resolve_type_order_witness :
  _resolve_type param_inline = "list of text"
  ∧ _resolve_type prop_nested = "text | list of file"
  ∧ _resolve_type result_bare = "any".
Proof.
  split; [|split].
  - apply (proj1 (resolve_type_order param_inline) "text").
    + reflexivity.
    + discriminate.
  - rewrite (proj1 (proj2 (resolve_type_order prop_nested))).
    + reflexivity.
    + left. reflexivity.
    + vm_compute. discriminate.
  - apply (proj2 (proj2 (resolve_type_order result_bare))).
    + left. reflexivity.
    + reflexivity.
Defined.

(** C1 as the specification words it fails: an inline attribute that is
    present but empty does not decide the type; the descriptor does. *)
Lemma resolve_type_empty_inline :
  ¬ (∀ t, get param_empty_inline "type" = Some t →
          _resolve_type param_empty_inline = rule1 param_empty_inline t).
Proof.
  intros H. specialize (H "" eq_refl). vm_compute in H. discriminate.
Qed.



(** C9: a descriptor with an empty [type] attribute resolves to the empty
    string, and the parsed document carries it as the parameter's type. *)
Theorem resolve_type_empty_descriptor :
  _resolve_type param_empty_descriptor = ""
  ∧ map (λ suite, map (λ cmd, map param_type (cmd_parameters cmd))
                    (suite_commands suite))
      (_parse doc_empty_descriptor) = [[[""]]].
Proof. split; reflexivity. Qed.

(** ** Structural parsing *)

(** What [_parse] builds from one suite element. *)
Lemma parse_unfold (root_el : Element) :
  _parse root_el =
    map (λ suite_el,
           {| suite_name := get_or suite_el "name" "";
              suite_code := get_or suite_el "code" "";
              suite_description := get_or suite_el "description" "";
              suite_commands :=
                map _parse_command (findall suite_el "command");
              suite_classes :=
                map _parse_class (findall suite_el "class")
                ++ map (λ e, mark_extension (_parse_class e))
                     (findall suite_el "class-extension");
              suite_enumerations :=
                map _parse_enum (findall suite_el "enumeration") |})
      (findall root_el "suite").
Proof.
  unfold _parse.
  etrans; [apply (for_append_spec _ _ [])|]. simpl.
  apply map_ext. intros suite_el.
  by rewrite !for_append_spec.
Qed.

Lemma findall_sublist (el : Element) (name : string) :
  sublist (findall el name) (children el).
Proof. apply sublist_filter. Qed.

Lemma parse_class_name_flag (e : Element) :
  cls_name (_parse_class e) = get_or e "name" ""
  ∧ cls_is_extension (_parse_class e) = false
  ∧ cls_name (mark_extension (_parse_class e)) = get_or e "name" ""
  ∧ cls_is_extension (mark_extension (_parse_class e)) = true.
Proof. done. Qed.

(** C2, as the code has it: the suites are the document's suite elements
    in document order, and in each suite the commands, the classes and the
    enumerations are the elements of their tag, as many and in document
    order; the [classes] sequence holds the plain classes first, in document
    order and not flagged, and after them the class extensions, in document
    order and flagged. *)
Theorem parse_preserves_order (root_el : Element) :
  Forall2
    (λ suite_el suite,
       suite_name suite = get_or suite_el "name" ""
       ∧ suite_commands suite = map _parse_command (findall suite_el "command")
       ∧ map cmd_name (suite_commands suite)
         = map (λ e, get_or e "name" "") (findall suite_el "command")
       ∧ suite_classes suite
         = map _parse_class (findall suite_el "class")
           ++ map (λ e, mark_extension (_parse_class e))
                (findall suite_el "class-extension")
       ∧ map (λ c, (cls_name c, cls_is_extension c)) (suite_classes suite)
         = map (λ e, (get_or e "name" "", false)) (findall suite_el "class")
           ++ map (λ e, (get_or e "name" "", true))
                (findall suite_el "class-extension")
       ∧ suite_enumerations suite
         = map _parse_enum (findall suite_el "enumeration")
       ∧ map enum_name (suite_enumerations suite)
         = map (λ e, get_or e "name" "") (findall suite_el "enumeration"))
    (findall root_el "suite") (_parse root_el)
  ∧ length (_parse root_el) = length (findall root_el "suite")
  ∧ ∀ e name, sublist (findall e name) (children e).
Proof.
  rewrite parse_unfold. split; [|split].
  - induction (findall root_el "suite") as [|suite_el rest IH]; simpl.
    + constructor.
    + constructor; [|exact IH]. simpl.
      repeat split; rewrite ?map_app, ?map_map; reflexivity.
  - by rewrite length_map.
  - apply findall_sublist.
Qed.

(** C2 as the specification words it fails: where a suite declares a class
    extension before a class, [classes] does not follow the order of the
    declarations. *)
Lemma parse_classes_not_in_document_order :
  ¬ Forall2
      (λ suite_el suite,
         map cls_name (suite_classes suite)
         = map (λ e, get_or e "name" "") (class_declarations suite_el))
      (findall doc_extension_first "suite") (_parse doc_extension_first).
Proof.
  intros H. vm_compute in H.
  inversion H as [|? ? ? ? Hhead _]. discriminate Hhead.
Qed.

(** ** The parser cache *)

Lemma get_parser_hit (h : Host) (app_name : string) (w : World)
    (parser : SDEFParser) :
  _sdef_cache w !! app_name = Some parser →
  _get_parser h app_name w = (inr parser, w).
Proof.
  intros Hin. unfold _get_parser, mbind, M_bind, cache_misses, cache_fetch.
  rewrite Hin. simpl. by rewrite Hin.
Qed.

(** What a call does when the identifier is not in the cache. *)
Lemma get_parser_miss (h : Host) (app_name : string) (w : World) :
  _sdef_cache w !! app_name = None →
  _get_parser h app_name w =
    let w1 := {| _sdef_cache := _sdef_cache w;
                 host_calls := host_calls w ++ [FindAppPath app_name] |} in
    match _find_app_path h app_name with
    | Some (String c p) =>
        let w2 := {| _sdef_cache := _sdef_cache w;
                     host_calls := host_calls w1 ++ [GetSdefXml (String c p)] |} in
        match _get_sdef_xml h (String c p) with
        | inl e => (inl e, w2)
        | inr xml =>
            match SDEFParser_init (ET_fromstring h) xml with
            | inl e => (inl e, w2)
            | inr parser =>
                (inr parser,
                 {| _sdef_cache := <[app_name := parser]> (_sdef_cache w);
                    host_calls := host_calls w2 |})
            end
        end
    | _ =>
        (inl (ValueError ("App '" +:+ app_name +:+ "' not found. "
                +:+ "Use list_scriptable_apps() to see available apps.")), w1)
    end.
Proof.
  intros Hout.
  unfold _get_parser, mbind, M_bind, cache_misses, cache_fetch, cache_store,
    call_find_app_path, call_get_sdef_xml, call_SDEFParser, raise.
  rewrite Hout. simpl.
  destruct (_find_app_path h app_name) as [[|c p]|]; simpl; try done.
  destruct (_get_sdef_xml h (String c p)) as [e|xml]; simpl; [done|].
  destruct (SDEFParser_init (ET_fromstring h) xml) as [e|parser]; simpl; [done|].
  by rewrite lookup_insert_eq.
Qed.

(** A call leaves the entries of the other identifiers alone. *)
Lemma get_parser_other (h : Host) (a b : string) (w : World) :
  a ≠ b →
  _sdef_cache (_get_parser h b w).2 !! a = _sdef_cache w !! a.
Proof.
  intros Hne. destruct (_sdef_cache w !! b) as [p|] eqn:Hb.
  - by rewrite (get_parser_hit h b w p Hb).
  - rewrite (get_parser_miss h b w Hb). simpl.
    destruct (_find_app_path h b) as [[|c s]|]; simpl; try done.
    destruct (_get_sdef_xml h (String c s)) as [e|xml]; simpl; [done|].
    destruct (SDEFParser_init (ET_fromstring h) xml) as [e|parser]; simpl;
      [done|].
    by rewrite lookup_insert_ne.
Qed.

(** No call removes or replaces an entry. *)
Lemma get_parser_keeps (h : Host) (a b : string) (w : World)
    (parser : SDEFParser) :
  _sdef_cache w !! a = Some parser →
  _sdef_cache (_get_parser h b w).2 !! a = Some parser.
Proof.
  intros Ha. destruct (decide (a = b)) as [<-|Hne].
  - by rewrite (get_parser_hit h a w parser Ha).
  - by rewrite get_parser_other.
Qed.

Lemma get_parser_ok_cached (h : Host) (a : string) (w w' : World)
    (parser : SDEFParser) :
  _get_parser h a w = (inr parser, w') →
  _sdef_cache w' !! a = Some parser.
Proof.
  destruct (_sdef_cache w !! a) as [p|] eqn:Ha.
  - rewrite (get_parser_hit h a w p Ha). by intros [= <- <-].
  - rewrite (get_parser_miss h a w Ha). simpl.
    destruct (_find_app_path h a) as [[|c s]|]; simpl; try done.
    destruct (_get_sdef_xml h (String c s)) as [e|xml]; simpl; [done|].
    destruct (SDEFParser_init (ET_fromstring h) xml) as [e|q]; simpl; [done|].
    intros [= <- <-]. simpl. by rewrite lookup_insert_eq.
Qed.

Lemma get_parser_failed (h : Host) (a : string) (w w' : World)
    (e : Exception) :
  _get_parser h a w = (inl e, w') →
  _sdef_cache w' = _sdef_cache w ∧ _sdef_cache w !! a = None.
Proof.
  destruct (_sdef_cache w !! a) as [p|] eqn:Ha.
  - by rewrite (get_parser_hit h a w p Ha).
  - rewrite (get_parser_miss h a w Ha). simpl.
    destruct (_find_app_path h a) as [[|c s]|]; simpl;
      try by intros [= <- <-].
    destruct (_get_sdef_xml h (String c s)) as [e'|xml]; simpl;
      [by intros [= <- <-]|].
    destruct (SDEFParser_init (ET_fromstring h) xml) as [e'|q]; simpl;
      [by intros [= <- <-]|done].
Qed.

Lemma run_requests_keeps (requests : list (Host * string)) (a : string)
    (w : World) (parser : SDEFParser) :
  _sdef_cache w !! a = Some parser →
  _sdef_cache (run_requests requests w) !! a = Some parser.
Proof.
  unfold run_requests. revert w.
  induction requests as [|[h b] rest IH]; intros w Ha; simpl; [done|].
  apply IH. by apply get_parser_keeps.
Qed.

Lemma run_requests_others (requests : list (Host * string)) (a : string)
    (w : World) :
  Forall (λ r, r.2 ≠ a) requests →
  _sdef_cache (run_requests requests w) !! a = _sdef_cache w !! a.
Proof.
  unfold run_requests. revert w.
  induction requests as [|[h b] rest IH]; intros w Hall; simpl; [done|].
  inversion Hall as [|? ? Hb Hrest]; subst. simpl in Hb.
  rewrite (IH _ Hrest). by apply get_parser_other.
Qed.

(** A call for an identifier that is not in the cache starts by asking
    the host where the application is. *)
Lemma get_parser_miss_calls (h : Host) (a : string) (w : World) :
  _sdef_cache w !! a = None →
  ∃ more, host_calls (_get_parser h a w).2
          = host_calls w ++ FindAppPath a :: more.
Proof.
  intros Ha. rewrite (get_parser_miss h a w Ha). simpl.
  destruct (_find_app_path h a) as [[|c s]|]; simpl;
    try by (exists []).
  exists [GetSdefXml (String c s)].
  destruct (_get_sdef_xml h (String c s)) as [e|xml]; simpl;
    [by rewrite <- app_assoc|].
  destruct (SDEFParser_init (ET_fromstring h) xml) as [e|q]; simpl;
    by rewrite <- app_assoc.
Qed.

(** C3: a call for an identifier that is not in the cache, on a host that
    finds the bundle, gets its dictionary and parses it, returns the parser
    built from the parsed root and stores it under the identifier.  Once a
    call for an identifier has returned a parser, every later call for that
    identifier, after whatever other calls and on whatever host, returns
    that parser and leaves the process state as it is: no host call is
    added.  A call that raises leaves the cache as it was, and the next call
    for that identifier, with calls for other identifiers in between or
    not, asks the host again, starting with [_find_app_path]. *)
Theorem get_parser_cache_contract (h : Host) (app_name : string) (w : World) :
  (∀ c p xml root_el,
     _sdef_cache w !! app_name = None →
     _find_app_path h app_name = Some (String c p) →
     _get_sdef_xml h (String c p) = inr xml →
     ET_fromstring h xml = inr root_el →
     let parser := {| root := root_el;
                      title := get_or root_el "title" "";
                      suites := _parse root_el |} in
     ∃ w',
       _get_parser h app_name w = (inr parser, w')
       ∧ _sdef_cache w' !! app_name = Some parser
       ∧ ∀ requests h',
           _get_parser h' app_name (run_requests requests w')
           = (inr parser, run_requests requests w'))
  ∧ (∀ parser w',
       _get_parser h app_name w = (inr parser, w') →
       _sdef_cache w' !! app_name = Some parser
       ∧ ∀ requests h',
           _get_parser h' app_name (run_requests requests w')
           = (inr parser, run_requests requests w'))
  ∧ (∀ e w',
       _get_parser h app_name w = (inl e, w') →
       _sdef_cache w' = _sdef_cache w
       ∧ ∀ requests h',
           Forall (λ r, r.2 ≠ app_name) requests →
           ∃ more,
             host_calls (_get_parser h' app_name (run_requests requests w')).2
             = host_calls (run_requests requests w')
               ++ FindAppPath app_name :: more).
Proof.
  assert (∀ parser w',
            _get_parser h app_name w = (inr parser, w') →
            _sdef_cache w' !! app_name = Some parser
            ∧ ∀ requests h',
                _get_parser h' app_name (run_requests requests w')
                = (inr parser, run_requests requests w')) as Hlater.
  { intros parser w' Hok.
    pose proof (get_parser_ok_cached h app_name w w' parser Hok) as Hin.
    split; [exact Hin|]. intros requests h'.
    by apply get_parser_hit, run_requests_keeps. }
  split; [|split; [exact Hlater|]].
  - intros c p xml root_el Hout Hpath Hxml Hroot parser.
    pose proof (get_parser_miss h app_name w Hout) as Hmiss.
    simpl in Hmiss. rewrite Hpath, Hxml in Hmiss.
    unfold SDEFParser_init in Hmiss. rewrite Hroot in Hmiss.
    eexists. split; [exact Hmiss|]. by apply Hlater.
  - intros e w' Hfail.
    destruct (get_parser_failed h app_name w w' e Hfail) as [Hsame Hout].
    split; [done|]. intros requests h' Hothers.
    apply get_parser_miss_calls.
    by rewrite (run_requests_others requests app_name w' Hothers), Hsame.
Qed.

Lemma get_parser_cache_contract_witness :
  (∃ w',
     _get_parser host_demo "Demo" world_start = (inr parser_demo, w')
     ∧ _sdef_cache w' !! "Demo" = Some parser_demo
     ∧ _get_parser host_bare "Demo" (run_requests [(host_demo, "Other")] w')
       = (inr parser_demo, run_requests [(host_demo, "Other")] w'))
  ∧ _get_parser host_bare "Demo"
      (run_requests [(host_demo, "Other")] world_demo)
    = (inr parser_demo, run_requests [(host_demo, "Other")] world_demo)
  ∧ ∃ more,
      host_calls
        (_get_parser host_demo "Demo"
           (run_requests [(host_demo, "Other")]
              (_get_parser host_bare "Demo" world_start).2)).2
      = host_calls
          (run_requests [(host_demo, "Other")]
             (_get_parser host_bare "Demo" world_start).2)
        ++ FindAppPath "Demo" :: more.
Proof.
  split; [|split].
  - destruct (proj1 (get_parser_cache_contract host_demo "Demo" world_start)
                "/"%char "Applications/Demo.app" "<dictionary title='Demo'/>"
                doc_demo eq_refl eq_refl eq_refl eq_refl)
      as (w' & Hget & Hin & Hlater).
    exists w'. split; [exact Hget|]. split; [exact Hin|].
    exact (Hlater [(host_demo, "Other")] host_bare).
  - apply (proj1 (proj2 (get_parser_cache_contract host_demo "Demo"
                           world_start))
             parser_demo world_demo).
    vm_compute. reflexivity.
  - apply (proj2 (proj2 (get_parser_cache_contract host_bare "Demo"
                           world_start))
             (ValueError ("App 'Demo' not found. "
                +:+ "Use list_scriptable_apps() to see available apps."))
             (_get_parser host_bare "Demo" world_start).2
             ltac:(vm_compute; reflexivity)).
    repeat constructor. simpl. discriminate.
Defined.

(** ** Strings *)

Lemma append_cons (c : ascii) (s t : string) :
  String c s +:+ t = String c (s +:+ t).
Proof. reflexivity. Qed.

Lemma prefix_spec (q s : string) :
  String.prefix q s = true ↔ ∃ post, s = q +:+ post.
Proof.
  revert q. induction s as [|b s IH]; intros [|a q]; simpl.
  - split; [by exists ""|done].
  - split; [done|]. by intros [post ?].
  - split; [by exists (String b s)|done].
  - destruct (ascii_dec a b) as [->|Hne].
    + rewrite IH. split; intros [post Hpost]; exists post;
        rewrite append_cons in *; congruence.
    + split; [done|]. intros [post Hpost].
      rewrite append_cons in Hpost. congruence.
Qed.

Lemma contains_unfold (q s : string) :
  Py.contains q s =
    String.prefix q s
    || match s with
       | EmptyString => false
       | String _ s' => Py.contains q s'
       end.
Proof. by destruct s. Qed.

(** [q in s] holds exactly when [s] is some text, then [q], then some text. *)
Lemma contains_spec (q s : string) :
  Py.contains q s = true ↔ ∃ pre post, s = pre +:+ q +:+ post.
Proof.
  split.
  - induction s as [|c s IH]; rewrite contains_unfold;
      intros [Hp|Hc]%orb_true_iff.
    + apply prefix_spec in Hp as [post ->]. by exists "", post.
    + done.
    + apply prefix_spec in Hp as [post ->]. by exists "", post.
    + destruct (IH Hc) as (pre & post & ->). by exists (String c pre), post.
  - intros (pre & post & ->).
    induction pre as [|c pre IH]; rewrite contains_unfold; apply orb_true_iff.
    + left. apply prefix_spec. by exists post.
    + right. exact IH.
Qed.

Lemma contains_lower_spec {L : StrLower} (query name : string) :
  Py.contains (str_lower query) (str_lower name) = true ↔ ci_substring query name.
Proof. apply contains_spec. Qed.

Lemma contains_lower_false {L : StrLower} (query name : string) :
  Py.contains (str_lower query) (str_lower name) = false ↔
  ¬ ci_substring query name.
Proof.
  rewrite <- contains_lower_spec. by destruct (Py.contains _ _).
Qed.

Lemma or_empty (s : string) : Py.or_ s "" = s.
Proof. by destruct s. Qed.

Lemma text_matches_spec {L : StrLower} (query name description : string) :
  text_matches (str_lower query) name description = true ↔
  ci_in_text query name description.
Proof.
  unfold text_matches, ci_in_text.
  by rewrite or_empty, orb_true_iff, !contains_lower_spec.
Qed.

Lemma same_name_spec {L : StrLower} (a b : string) :
  same_name a b = true ↔ str_lower a = str_lower b.
Proof. unfold same_name. apply String.eqb_eq. Qed.

Lemma truthy_list_join {A} (l : list A) (yes no : string) :
  l ≠ [] → (if Py.truthy_list l then yes else no) = yes.
Proof. by destruct l. Qed.

(** ** Sorted sets of names *)

Lemma sorted_set_spec (xs : list string) :
  StronglySorted String.le (Py.sorted_set xs)
  ∧ NoDup (Py.sorted_set xs)
  ∧ ∀ x, x ∈ Py.sorted_set xs ↔ x ∈ xs.
Proof.
  unfold Py.sorted_set. split; [|split].
  - apply StronglySorted_merge_sort; apply _.
  - rewrite merge_sort_Permutation. apply NoDup_remove_dups.
  - intros x. rewrite merge_sort_Permutation. apply elem_of_remove_dups.
Qed.

(** ** Lookups by name *)

(** The two nested loops of a lookup: every item of every suite that
    passes the test contributes its text, suite after suite and item after
    item. *)
Lemma lookup_loops_spec {A} (items : Suite → list A) (test : A → bool)
    (text : A → string → string) (all : list Suite) (acc : list string) :
  fold_left
    (λ results suite,
       Py.for_append_if test (λ x, text x (suite_name suite))
         (items suite) results)
    all acc
  = acc ++ flat_map
             (λ suite, map (λ x, text x (suite_name suite))
                         (List.filter test (items suite)))
             all.
Proof.
  rewrite (fold_left_appending
             (λ results suite,
                Py.for_append_if test (λ x, text x (suite_name suite))
                  (items suite) results)).
  - f_equal. apply flat_map_ext. intros suite.
    by rewrite for_append_if_spec.
  - intros results suite. by rewrite !for_append_if_spec.
Qed.

Lemma lookup_loops_elem {A} (items : Suite → list A) (test : A → bool)
    (text : A → string → string) (all : list Suite) (line : string) :
  line ∈ flat_map
           (λ suite, map (λ x, text x (suite_name suite))
                       (List.filter test (items suite)))
           all
  ↔ ∃ suite x, suite ∈ all ∧ x ∈ items suite ∧ test x = true
               ∧ line = text x (suite_name suite).
Proof.
  rewrite list_elem_of_In, in_flat_map. split.
  - intros (suite & Hs & Hline).
    apply in_map_iff in Hline as (x & <- & Hx).
    apply filter_In in Hx as [Hx Ht].
    exists suite, x. by rewrite !list_elem_of_In.
  - intros (suite & x & Hs & Hx & Ht & ->).
    exists suite. rewrite <- list_elem_of_In. split; [done|].
    apply in_map_iff. exists x. split; [done|].
    apply filter_In. by rewrite <- list_elem_of_In.
Qed.

Lemma lookup_loops_nil {A} (items : Suite → list A) (test : A → bool)
    (text : A → string → string) (all : list Suite) :
  (∀ suite x, suite ∈ all → x ∈ items suite → test x = false) →
  flat_map
    (λ suite, map (λ x, text x (suite_name suite))
                (List.filter test (items suite)))
    all = [].
Proof.
  intros Hnone. destruct (flat_map _ all) as [|line rest] eqn:E; [done|].
  assert (line ∈ line :: rest) as Hin by left.
  rewrite <- E in Hin.
  apply lookup_loops_elem in Hin as (suite & x & Hs & Hx & Ht & _).
  by rewrite (Hnone suite x Hs Hx) in Ht.
Qed.

(** A tool on a dictionary that is loaded: the answer is computed from the
    stored parser and the process state stays as it is. *)
Lemma tool_on_loaded (h : Host) (app_name : string) (w : World)
    (parser : SDEFParser) (answer : SDEFParser → string) :
  _sdef_cache w !! app_name = Some parser →
  (parser' ← _get_parser h app_name; mret (answer parser')) w
  = (inr (answer parser), w).
Proof.
  intros Hin. unfold mbind, M_bind.
  by rewrite (get_parser_hit h app_name w parser Hin).
Qed.

(** ** [get_class] *)



Lemma class_results_spec {L : StrLower} (parser : SDEFParser)
    (class_name : string) :
  class_results parser class_name =
    flat_map
      (λ suite, map (λ cls, _fmt_class_detail cls (suite_name suite))
                  (List.filter (λ cls, same_name (cls_name cls) class_name)
                     (suite_classes suite)))
      (suites parser).
Proof.
  unfold class_results.
  apply (lookup_loops_spec suite_classes
           (λ cls, same_name (cls_name cls) class_name)
           _fmt_class_detail (suites parser) []).
Qed.


Lemma demo_suite_standard : suite_standard ∈ suites parser_demo.
Proof. apply list_elem_of_In. vm_compute. left. reflexivity. Defined.


(** ** [get_command] *)

Lemma command_results_lower {L : StrLower} (parser : SDEFParser) (a b : string)
    :
  str_lower a = str_lower b →
  command_results parser a = command_results parser b.
Proof.
  intros Hab. unfold command_results, same_name. by rewrite Hab.
Qed.

(** C6, as the code has it: two queries that [str.lower] maps to the same
    string (as it does queries that differ only in the case of their ASCII
    letters) select the same command blocks; when a command matches, the
    answers of [get_command] are equal; when none matches, each answer
    repeats its own query as it was typed and then lists the same
    alternatives. *)
Theorem command_lookup_ignores_case {L : StrLower} (h : Host)
    (app_name a b : string) (w : World) (parser : SDEFParser) :
  _sdef_cache w !! app_name = Some parser →
  str_lower a = str_lower b →
  command_results parser a = command_results parser b
  ∧ (command_results parser a ≠ [] →
     get_command h app_name a w = get_command h app_name b w)
  ∧ (command_results parser a = [] →
     get_command h app_name a w
     = (inr ("Command '" +:+ a +:+ "' not found." +:+ Py.nl
             +:+ "Available: " +:+ Py.join ", " (all_cmds parser)), w)
     ∧ get_command h app_name b w
       = (inr ("Command '" +:+ b +:+ "' not found." +:+ Py.nl
               +:+ "Available: " +:+ Py.join ", " (all_cmds parser)), w)).
Proof.
  intros Hin Hab.
  pose proof (command_results_lower parser a b Hab) as Hres.
  unfold get_command.
  rewrite (tool_on_loaded h app_name w parser (λ p, command_text p a) Hin).
  rewrite (tool_on_loaded h app_name w parser (λ p, command_text p b) Hin).
  unfold command_text. rewrite <- Hres.
  split; [done|]. split.
  - intros Hsome. by destruct (command_results parser a).
  - intros ->. done.
Qed.

Lemma command_lookup_ignores_case_witness :
  command_results (L := ascii_lower) parser_demo "Close"
  = command_results (L := ascii_lower) parser_demo "close"
  ∧ get_command (L := ascii_lower) host_bare "Demo" "Close" world_demo
    = get_command (L := ascii_lower) host_bare "Demo" "close" world_demo.
Proof.
  pose proof (command_lookup_ignores_case (L := ascii_lower) host_bare "Demo"
                "Close" "close" world_demo parser_demo eq_refl eq_refl)
    as (Hres & Hsome & _).
  split; [exact Hres|]. apply Hsome. vm_compute. discriminate.
Defined.

(** C6 as the specification words it fails: [Make] and [make] differ only
    in letter case, and [str.lower], on ASCII text as here, maps both to
    [make]; no command of the sample has that name, and the two answers
    differ: each repeats its query letter for letter. *)
Lemma command_miss_repeats_query :
  ¬ (@str_lower ascii_lower "Make" = @str_lower ascii_lower "make" →
     get_command (L := ascii_lower) host_bare "Demo" "Make" world_demo
     = get_command (L := ascii_lower) host_bare "Demo" "make" world_demo).
Proof.
  intros H. specialize (H eq_refl). vm_compute in H. discriminate H.
Qed.

(** ** [get_enumeration] *)

Lemma enumeration_results_spec {L : StrLower} (parser : SDEFParser)
    (enum_name' : string) :
  enumeration_results parser enum_name' =
    flat_map
      (λ suite, map (λ enum, _fmt_enum_detail enum (suite_name suite))
                  (List.filter (λ enum, same_name (enum_name enum) enum_name')
                     (suite_enumerations suite)))
      (suites parser).
Proof.
  unfold enumeration_results.
  apply (lookup_loops_spec suite_enumerations
           (λ enum, same_name (enum_name enum) enum_name')
           _fmt_enum_detail (suites parser) []).
Qed.

(** C7: on a loaded dictionary, when no enumeration of any suite has the
    queried name (names are compared after [str.lower], whatever that
    function does to them), [get_enumeration] finds no block and answers
    with the not-found line followed by the names of all the enumerations
    of the document: each name once, in ascending order of their
    characters, and no other name. *)
Theorem enumeration_miss_lists_all {L : StrLower} (h : Host)
    (app_name enum_name' : string) (w : World) (parser : SDEFParser) :
  _sdef_cache w !! app_name = Some parser →
  (∀ suite enum,
     suite ∈ suites parser → enum ∈ suite_enumerations suite →
     str_lower (enum_name enum) ≠ str_lower enum_name') →
  enumeration_results parser enum_name' = []
  ∧ get_enumeration h app_name enum_name' w
    = (inr ("Enum '" +:+ enum_name' +:+ "' not found." +:+ Py.nl
            +:+ "Available: " +:+ Py.join ", " (all_enums parser)), w)
  ∧ StronglySorted String.le (all_enums parser)
  ∧ NoDup (all_enums parser)
  ∧ ∀ name,
      name ∈ all_enums parser
      ↔ ∃ suite enum,
          suite ∈ suites parser ∧ enum ∈ suite_enumerations suite
          ∧ enum_name enum = name.
Proof.
  intros Hin Hnone.
  assert (enumeration_results parser enum_name' = []) as Hres.
  { rewrite enumeration_results_spec. apply lookup_loops_nil.
    intros suite enum Hs He.
    destruct (same_name (enum_name enum) enum_name') eqn:E; [|done].
    apply same_name_spec in E. by destruct (Hnone suite enum Hs He). }
  split; [exact Hres|]. split.
  - unfold get_enumeration.
    rewrite (tool_on_loaded h app_name w parser
               (λ p, enumeration_text p enum_name') Hin).
    unfold enumeration_text. by rewrite Hres.
  - unfold all_enums.
    destruct (sorted_set_spec
                (flat_map (λ suite, map enum_name (suite_enumerations suite))
                   (suites parser))) as (Hsorted & Hnodup & Helem).
    split; [exact Hsorted|]. split; [exact Hnodup|].
    intros name. rewrite Helem, list_elem_of_In, in_flat_map. split.
    + intros (suite & Hs & Hname).
      apply in_map_iff in Hname as (enum & <- & He).
      exists suite, enum. by rewrite !list_elem_of_In.
    + intros (suite & enum & Hs & He & <-).
      exists suite. rewrite <- list_elem_of_In. split; [done|].
      apply in_map_iff. exists enum. by rewrite <- list_elem_of_In.
Qed.

Lemma enumeration_miss_lists_all_witness :
  get_enumeration (L := ascii_lower) host_bare "Demo" "nonexistent" world_demo
  = (inr ("Enum 'nonexistent' not found." +:+ Py.nl
          +:+ "Available: save options"), world_demo)
  ∧ NoDup (all_enums parser_demo).
Proof.
  pose proof (enumeration_miss_lists_all (L := ascii_lower) host_bare "Demo"
                "nonexistent" world_demo parser_demo eq_refl) as H.
  assert (∀ suite enum,
            suite ∈ suites parser_demo → enum ∈ suite_enumerations suite →
            @str_lower ascii_lower (enum_name enum) ≠ @str_lower ascii_lower
                "nonexistent") as Hnone.
  { intros suite enum Hs He.
    apply list_elem_of_In in Hs. vm_compute in Hs.
    destruct Hs as [<-|[<-|[]]]; apply list_elem_of_In in He;
      vm_compute in He; [|destruct He].
    destruct He as [<-|[]]. vm_compute. discriminate. }
  destruct (H Hnone) as (_ & Htext & _ & Hnodup & _).
  split; [|exact Hnodup]. rewrite Htext. vm_compute. reflexivity.
Defined.

(** ** [get_suite_detail] *)

Lemma suite_detail_loop_first {L : StrLower} (suite_name' : string)
    (before after : list Suite) (suite : Suite) :
  Forall (λ s, str_lower (suite_name s) ≠ str_lower suite_name') before →
  str_lower (suite_name suite) = str_lower suite_name' →
  suite_detail_loop suite_name' (before ++ suite :: after)
  = Some (_fmt_suite_detail suite).
Proof.
  intros Hbefore Hsuite.
  induction Hbefore as [|s before Hs _ IH]; simpl.
  - by rewrite (proj2 (same_name_spec _ _) Hsuite).
  - destruct (same_name (suite_name s) suite_name') eqn:E; [|exact IH].
    by apply same_name_spec in E.
Qed.

(** C10: on a loaded dictionary, [get_suite_detail] answers with the
    rendering of the first suite, in document order, whose name equals the
    query once [str.lower] has been applied to both, whatever that function
    does to them; the suites after it, of the same name or not, have no
    part in the answer. *)
Theorem suite_detail_first_match {L : StrLower} (h : Host)
    (app_name suite_name' : string) (w : World) (parser : SDEFParser)
    (before after : list Suite) (suite : Suite) :
  _sdef_cache w !! app_name = Some parser →
  suites parser = before ++ suite :: after →
  Forall (λ s, str_lower (suite_name s) ≠ str_lower suite_name') before →
  str_lower (suite_name suite) = str_lower suite_name' →
  get_suite_detail h app_name suite_name' w
  = (inr (_fmt_suite_detail suite), w).
Proof.
  intros Hin Hsuites Hbefore Hsuite. unfold get_suite_detail.
  rewrite (tool_on_loaded h app_name w parser
             (λ p, suite_detail_text p suite_name') Hin).
  unfold suite_detail_text.
  by rewrite Hsuites, (suite_detail_loop_first _ _ _ _ Hbefore Hsuite).
Qed.

Lemma suite_detail_first_match_witness :
  @str_lower ascii_lower (suite_name (List.nth 1 (suites parser_demo)
      suite_none))
  = @str_lower ascii_lower "STANDARD SUITE"
  ∧ get_suite_detail (L := ascii_lower) host_bare "Demo" "STANDARD SUITE"
      world_demo
    = (inr (_fmt_suite_detail suite_standard), world_demo).
Proof.
  split; [reflexivity|].
  apply (suite_detail_first_match (L := ascii_lower) host_bare "Demo"
           "STANDARD SUITE"
           world_demo parser_demo [] (List.tl (suites parser_demo))
           suite_standard).
  - reflexivity.
  - vm_compute. reflexivity.
  - constructor.
  - reflexivity.
Defined.

(** ** [search_dictionary] *)

Lemma class_step_spec {L : StrLower} (q sn : string) (hits : list string)
    (cls : ClassDef) :
  class_step q sn hits cls =
    hits
    ++ (if text_matches q (cls_name cls) (cls_description cls)
        then [cls_hit sn cls] else [])
    ++ map (prop_hit sn cls)
         (List.filter
            (λ prop, text_matches q (prop_name prop) (prop_description prop))
            (cls_properties cls)).
Proof.
  unfold class_step. rewrite for_append_if_spec.
  destruct (text_matches q (cls_name cls) (cls_description cls)); simpl.
  - by rewrite <- app_assoc.
  - reflexivity.
Qed.

Lemma enum_step_spec {L : StrLower} (q sn : string) (hits : list string)
    (enum : Enumeration) :
  enum_step q sn hits enum =
    hits
    ++ (if Py.contains q (str_lower (enum_name enum))
        then [enum_hit sn enum]
        else map (val_hit sn enum)
               (List.filter (λ v, Py.contains q (str_lower (val_name v)))
                  (enum_values enum))).
Proof.
  unfold enum_step.
  destruct (Py.contains q (str_lower (enum_name enum))); [done|].
  apply for_append_if_spec.
Qed.

Lemma class_step_appends {L : StrLower} (q sn : string) (hits : list string)
    (cls : ClassDef) :
  class_step q sn hits cls = hits ++ class_step q sn [] cls.
Proof. by rewrite !class_step_spec. Qed.

Lemma enum_step_appends {L : StrLower} (q sn : string) (hits : list string)
    (enum : Enumeration) :
  enum_step q sn hits enum = hits ++ enum_step q sn [] enum.
Proof. by rewrite !enum_step_spec. Qed.

Lemma suite_step_spec {L : StrLower} (q : string) (hits : list string)
    (suite : Suite) :
  suite_step q hits suite =
    hits
    ++ map (cmd_hit (suite_name suite))
         (List.filter
            (λ cmd, text_matches q (cmd_name cmd) (cmd_description cmd))
            (suite_commands suite))
    ++ flat_map (class_step q (suite_name suite) []) (suite_classes suite)
    ++ flat_map (enum_step q (suite_name suite) []) (suite_enumerations suite).
Proof.
  unfold suite_step.
  rewrite for_append_if_spec.
  rewrite (fold_left_appending (class_step q (suite_name suite)))
    by apply class_step_appends.
  rewrite (fold_left_appending (enum_step q (suite_name suite)))
    by apply enum_step_appends.
  by rewrite <- !app_assoc.
Qed.

(** The hits of a search: suite after suite, the hits of its commands,
    then what each class contributes, then what each enumeration
    contributes. *)
Lemma search_hits_spec {L : StrLower} (parser : SDEFParser) (query : string) :
  search_hits parser query =
    flat_map
      (λ suite,
         map (cmd_hit (suite_name suite))
           (List.filter
              (λ cmd, text_matches (str_lower query)
                        (cmd_name cmd) (cmd_description cmd))
              (suite_commands suite))
         ++ flat_map (class_step (str_lower query) (suite_name suite) [])
              (suite_classes suite)
         ++ flat_map (enum_step (str_lower query) (suite_name suite) [])
              (suite_enumerations suite))
      (suites parser).
Proof.
  unfold search_hits.
  rewrite (fold_left_appending (suite_step (str_lower query))).
  - simpl. apply flat_map_ext. intros suite.
    by rewrite suite_step_spec.
  - intros hits suite. by rewrite !suite_step_spec.
Qed.

(** C5: in a search, an enumeration whose own name contains the query
    (both through [str.lower], whatever that function does to them) adds
    exactly one line, the enumeration line with all its values, and its
    values are not looked at; an enumeration whose name does not contain
    the query adds one value line for each of its values whose name
    contains the query, in order, and no enumeration line.  The hits of the
    search are made of these contributions, one per enumeration, after
    those of the commands and classes of each suite. *)
Theorem search_enumeration_exclusive {L : StrLower} (parser : SDEFParser)
    (query sn : string) (hits : list string) (enum : Enumeration) :
  (ci_substring query (enum_name enum) →
   enum_step (str_lower query) sn hits enum = hits ++ [enum_hit sn enum])
  ∧ (¬ ci_substring query (enum_name enum) →
     enum_step (str_lower query) sn hits enum
     = hits ++ map (val_hit sn enum)
                 (List.filter
                    (λ v, Py.contains (str_lower query) (str_lower (val_name v)))
                    (enum_values enum)))
  ∧ (∀ v, Py.contains (str_lower query) (str_lower (val_name v)) = true
          ↔ ci_substring query (val_name v))
  ∧ search_hits parser query =
      flat_map
        (λ suite,
           map (cmd_hit (suite_name suite))
             (List.filter
                (λ cmd, text_matches (str_lower query)
                          (cmd_name cmd) (cmd_description cmd))
                (suite_commands suite))
           ++ flat_map (class_step (str_lower query) (suite_name suite) [])
                (suite_classes suite)
           ++ flat_map (enum_step (str_lower query) (suite_name suite) [])
                (suite_enumerations suite))
        (suites parser).
Proof.
  split; [|split; [|split]].
  - intros Hname. rewrite enum_step_spec.
    by rewrite (proj2 (contains_lower_spec _ _) Hname).
  - intros Hname. rewrite enum_step_spec.
    by rewrite (proj2 (contains_lower_false _ _) Hname).
  - intros v. apply contains_lower_spec.
  - apply search_hits_spec.
Qed.

Lemma search_enumeration_exclusive_witness :
  enum_step (L := ascii_lower) (@str_lower ascii_lower "OPT") "Standard Suite"
      [] enum_save_options
  = ["  ENUM [Standard Suite] save options: yes | no | ask"]
  ∧ enum_step (L := ascii_lower) (@str_lower ascii_lower "As") "Standard Suite"
      [] enum_save_options
    = ["  VAL  [Standard Suite] save options.ask — Ask the user."].
Proof.
  split.
  - rewrite (proj1 (search_enumeration_exclusive (L := ascii_lower) parser_demo
                      "OPT" "Standard Suite" [] enum_save_options)).
    + reflexivity.
    + exists "save ", "ions". reflexivity.
  - rewrite (proj1 (proj2 (search_enumeration_exclusive (L := ascii_lower)
                             parser_demo "As"
                             "Standard Suite" [] enum_save_options))).
    + reflexivity.
    + apply (contains_lower_false (L := ascii_lower)). reflexivity.
Defined.

(** C8: in a search, a class adds its class line when the query occurs in
    its name or in its description (all through [str.lower], whatever that
    function does to them) and, whether it did or not, one property line
    for each of its properties whose name or description contains the
    query, in order.  The hits of the search are made of these
    contributions, one per class. *)
Theorem search_class_and_properties {L : StrLower} (parser : SDEFParser)
    (query sn : string) (hits : list string) (cls : ClassDef) :
  (ci_in_text query (cls_name cls) (cls_description cls) →
   class_step (str_lower query) sn hits cls
   = hits ++ [cls_hit sn cls]
     ++ map (prop_hit sn cls)
          (List.filter
             (λ prop, text_matches (str_lower query)
                        (prop_name prop) (prop_description prop))
             (cls_properties cls)))
  ∧ (¬ ci_in_text query (cls_name cls) (cls_description cls) →
     class_step (str_lower query) sn hits cls
     = hits
       ++ map (prop_hit sn cls)
            (List.filter
               (λ prop, text_matches (str_lower query)
                          (prop_name prop) (prop_description prop))
               (cls_properties cls)))
  ∧ (∀ prop,
       prop ∈ cls_properties cls →
       ci_in_text query (prop_name prop) (prop_description prop) →
       prop_hit sn cls prop ∈ class_step (str_lower query) sn hits cls)
  ∧ (∀ prop,
       text_matches (str_lower query) (prop_name prop) (prop_description prop)
       = true
       ↔ ci_in_text query (prop_name prop) (prop_description prop))
  ∧ search_hits parser query =
      flat_map
        (λ suite,
           map (cmd_hit (suite_name suite))
             (List.filter
                (λ cmd, text_matches (str_lower query)
                          (cmd_name cmd) (cmd_description cmd))
                (suite_commands suite))
           ++ flat_map (class_step (str_lower query) (suite_name suite) [])
                (suite_classes suite)
           ++ flat_map (enum_step (str_lower query) (suite_name suite) [])
                (suite_enumerations suite))
        (suites parser).
Proof.
  split; [|split; [|split; [|split]]].
  - intros Hcls. rewrite class_step_spec.
    by rewrite (proj2 (text_matches_spec _ _ _) Hcls).
  - intros Hcls. rewrite class_step_spec.
    destruct (text_matches (str_lower query) (cls_name cls)
                (cls_description cls)) eqn:E; [|done].
    by apply text_matches_spec in E.
  - intros prop Hprop Hmatch. rewrite class_step_spec, !elem_of_app.
    right. right. apply list_elem_of_In, in_map. apply filter_In.
    split; [by apply list_elem_of_In|]. by apply text_matches_spec.
  - intros prop. apply text_matches_spec.
  - apply search_hits_spec.
Qed.

Lemma search_class_and_properties_witness :
  class_step (L := ascii_lower) (@str_lower ascii_lower "FRAME")
      "Standard Suite" [] class_window
  = ["  PROP [Standard Suite] window.bounds: rectangle"]
  ∧ class_step (L := ascii_lower) (@str_lower ascii_lower "docu")
      "Standard Suite" [] class_document
    = ["  CLS  [Standard Suite] document (1p 0e)"]
  ∧ "  PROP [Standard Suite] Document.path: file"
      ∈ class_step (L := ascii_lower) (@str_lower ascii_lower "saved")
          "Standard Suite" [] class_document_ext.
Proof.
  split; [|split].
  - rewrite (proj1 (proj2 (search_class_and_properties (L := ascii_lower)
                             parser_demo "FRAME"
                             "Standard Suite" [] class_window))).
    + reflexivity.
    + intros Hcls. apply (text_matches_spec (L := ascii_lower)) in Hcls.
        discriminate Hcls.
  - rewrite (proj1 (search_class_and_properties (L := ascii_lower) parser_demo
                      "docu" "Standard Suite" [] class_document)).
    + reflexivity.
    + left. exists "", "ment". reflexivity.
  - apply (proj1 (proj2 (proj2 (search_class_and_properties (L := ascii_lower)
                                  parser_demo "saved"
                                  "Standard Suite" [] class_document_ext)))
             (List.nth 0 (cls_properties class_document_ext)
                (mkClassProperty "" "" "" "" ""))).
    + apply list_elem_of_In. vm_compute. left. reflexivity.
    + right. exists "where the document is ", ".". reflexivity.
Defined.

(** * More of the code *)

(** ** The element parsers *)

Lemma find_first (el : Element) (name : string)
    (before after : list Element) (c : Element) :
  children el = before ++ c :: after →
  tag c = name →
  Forall (λ k, tag k ≠ name) before →
  find el name = Some c.
Proof.
  intros Hkids Hc Hbefore. unfold find, findall. rewrite Hkids.
  clear Hkids. induction Hbefore as [|k before Hk _ IH]; simpl.
  - by rewrite filter_cons_True.
  - by rewrite filter_cons_False.
Qed.

Lemma find_none (el : Element) (name : string) :
  Forall (λ k, tag k ≠ name) (children el) →
  find el name = None.
Proof.
  intros Hnone. unfold find, findall.
  induction Hnone as [|k kids Hk _ IH]; simpl; [done|].
  by rewrite filter_cons_False.
Qed.

(** The [optional] flag is set by the literal value [yes] and by nothing
    else. *)
Lemma optional_flag_spec (el : Element) :
  optional_flag el = bool_decide (get el "optional" = Some "yes").
Proof.
  unfold optional_flag, get_or, get.
  destruct (attrib el !! "optional") as [v|]; simpl.
  - apply bool_decide_ext. split; congruence.
  - reflexivity.
Qed.

(** X1: a command takes its direct parameter from the first
    [direct-parameter] child and its result from the first [result] child;
    later ones are not read, and without such a child the field is [None].
    Its parameters are the [parameter] children, as many and in document
    order, and a parameter is optional exactly when its [optional]
    attribute is the literal [yes]. *)
Theorem parse_command_children (el : Element) :
  (∀ before dp after,
     children el = before ++ dp :: after →
     tag dp = "direct-parameter" →
     Forall (λ k, tag k ≠ "direct-parameter") before →
     cmd_direct_parameter (_parse_command el)
     = Some {| dp_type := _resolve_type dp;
               dp_description := get_or dp "description" "";
               dp_optional := bool_decide (get dp "optional" = Some "yes") |})
  ∧ (Forall (λ k, tag k ≠ "direct-parameter") (children el) →
     cmd_direct_parameter (_parse_command el) = None)
  ∧ (∀ before res after,
       children el = before ++ res :: after →
       tag res = "result" →
       Forall (λ k, tag k ≠ "result") before →
       cmd_result (_parse_command el)
       = Some {| res_type := _resolve_type res;
                 res_description := get_or res "description" "" |})
  ∧ (Forall (λ k, tag k ≠ "result") (children el) →
     cmd_result (_parse_command el) = None)
  ∧ map (λ p, (param_name p, param_type p, param_optional p))
      (cmd_parameters (_parse_command el))
    = map (λ p, (get_or p "name" "", _resolve_type p,
                 bool_decide (get p "optional" = Some "yes")))
        (findall el "parameter").
Proof.
  unfold _parse_command. simpl. repeat split.
  - intros before dp after Hkids Hdp Hbefore.
    rewrite (find_first el _ before after dp Hkids Hdp Hbefore).
    by rewrite optional_flag_spec.
  - intros Hnone. by rewrite (find_none el _ Hnone).
  - intros before res after Hkids Hres Hbefore.
    by rewrite (find_first el _ before after res Hkids Hres Hbefore).
  - intros Hnone. by rewrite (find_none el _ Hnone).
  - rewrite for_append_spec. simpl. rewrite map_map. simpl.
    apply map_ext. intros p. by rewrite optional_flag_spec.
Qed.

Lemma parse_command_children_witness :
  option_map dp_type (cmd_direct_parameter (_parse_command cmd_repeated))
  = Some "specifier"
  ∧ option_map res_type (cmd_result (_parse_command cmd_repeated))
    = Some "specifier"
  ∧ cmd_direct_parameter (_parse_command result_bare) = None
  ∧ cmd_result (_parse_command param_inline) = None.
Proof.
  destruct (parse_command_children cmd_repeated) as (Hdp & _ & Hres & _ & _).
  split; [|split; [|split]].
  - rewrite (Hdp [node "parameter"
                    [("name", "to"); ("type", "location"); ("optional", "yes")] []]
               (node "direct-parameter" [("type", "specifier")] [])
               (List.skipn 2 (children cmd_repeated))).
    + reflexivity.
    + reflexivity.
    + reflexivity.
    + repeat constructor. discriminate.
  - rewrite (Hres (List.firstn 2 (children cmd_repeated))
               (node "result" [("type", "specifier")] [])
               (List.skipn 3 (children cmd_repeated))).
    + reflexivity.
    + reflexivity.
    + reflexivity.
    + repeat constructor; discriminate.
  - apply (proj1 (proj2 (parse_command_children result_bare))). constructor.
  - apply (proj1 (proj2 (proj2 (proj2 (parse_command_children param_inline))))).
    constructor.
Defined.

Lemma map_filter_comm {A B} (f : A → B) (p : B → bool) (xs : list A) :
  map f (List.filter (λ x, p (f x)) xs) = List.filter p (map f xs).
Proof.
  induction xs as [|x xs IH]; simpl; [done|].
  destruct (p (f x)); simpl; by rewrite IH.
Qed.

(** X2: the [responds_to] list of a class holds, in document order, the
    command names of its [responds-to] children and never an empty name:
    the name is the [command] attribute when that is there and not empty,
    else the [name] attribute, and a child with neither is left out. *)
Theorem parse_class_responds_to (el : Element) :
  cls_responds_to (_parse_class el)
  = List.filter Py.truthy (map responds_to_name (findall el "responds-to"))
  ∧ Forall (λ n, n ≠ "") (cls_responds_to (_parse_class el))
  ∧ ∀ rt,
      responds_to_name rt =
        match get rt "command" with
        | Some (String c s) => String c s
        | _ => default "" (get rt "name")
        end.
Proof.
  assert (cls_responds_to (_parse_class el)
          = List.filter Py.truthy
              (map responds_to_name (findall el "responds-to"))) as Heq.
  { unfold _parse_class. simpl. rewrite for_append_if_spec. simpl.
    apply (map_filter_comm responds_to_name Py.truthy). }
  split; [exact Heq|]. split.
  - rewrite Heq. apply Forall_forall. intros n Hn.
    apply list_elem_of_In, filter_In in Hn as [_ Hn]. by destruct n.
  - intros rt. unfold responds_to_name, get_or, get, Py.or_.
    by destruct (attrib rt !! "command") as [[|c s]|].
Qed.

(** X3: the parser reads the direct [suite] children of the root and
    nothing else of it: the root's tag, its attributes and its children of
    other tags, suites nested deeper included, leave the suites it builds
    unchanged. *)
Theorem parse_reads_only_suites (root_el : Element) (t : string)
    (attrs : gmap string string) :
  _parse root_el = _parse (mkElement t attrs (findall root_el "suite")).
Proof.
  rewrite !parse_unfold. f_equal. unfold findall at 2. simpl.
  unfold findall. symmetry. apply list_filter_filter_l. done.
Qed.

(** ** Loading a dictionary *)

(** X4: when the identifier is not in the cache and the host finds no
    bundle, or an empty path, [_get_parser] raises the not-found error that
    names the identifier; it has asked the host for the path and for nothing
    else, [sdef] is not run, and the cache is as before. *)
Theorem get_parser_app_not_found (h : Host) (app_name : string) (w : World) :
  _sdef_cache w !! app_name = None →
  _find_app_path h app_name = None ∨ _find_app_path h app_name = Some "" →
  _get_parser h app_name w
  = (inl (ValueError ("App '" +:+ app_name +:+ "' not found. "
            +:+ "Use list_scriptable_apps() to see available apps.")),
     {| _sdef_cache := _sdef_cache w;
        host_calls := host_calls w ++ [FindAppPath app_name] |}).
Proof.
  intros Hout Hpath. rewrite (get_parser_miss h app_name w Hout). simpl.
  by destruct Hpath as [-> | ->].
Qed.

Lemma get_parser_app_not_found_witness :
  _get_parser host_bare "Demo" world_start
  = (inl (ValueError ("App 'Demo' not found. "
            +:+ "Use list_scriptable_apps() to see available apps.")),
     {| _sdef_cache := ∅; host_calls := [FindAppPath "Demo"] |}).
Proof.
  apply (get_parser_app_not_found host_bare "Demo" world_start).
  - reflexivity.
  - left. reflexivity.
Defined.

(** X5: when the bundle is found but the dictionary cannot be had, the
    caller gets the error as it is and the cache stays as before: what
    [_get_sdef_xml] raises is passed on unchanged, and XML that does not
    parse gives a [ValueError] whose message is ["Malformed SDEF XML: "]
    followed by the parser's own message.  Both host calls have been
    made, in their order. *)
Theorem get_parser_load_failure (h : Host) (app_name : string) (w : World)
    (c : ascii) (p : string) :
  _sdef_cache w !! app_name = None →
  _find_app_path h app_name = Some (String c p) →
  let w' := {| _sdef_cache := _sdef_cache w;
               host_calls := host_calls w
                             ++ [FindAppPath app_name; GetSdefXml (String c p)] |} in
  (∀ e, _get_sdef_xml h (String c p) = inl e →
        _get_parser h app_name w = (inl e, w'))
  ∧ (∀ xml msg,
       _get_sdef_xml h (String c p) = inr xml →
       ET_fromstring h xml = inl msg →
       _get_parser h app_name w
       = (inl (ValueError ("Malformed SDEF XML: " +:+ msg)), w')).
Proof.
  intros Hout Hpath w'. subst w'.
  rewrite (get_parser_miss h app_name w Hout). simpl. rewrite Hpath.
  split.
  - intros e ->. by rewrite <- app_assoc.
  - intros xml msg -> Hbad. unfold SDEFParser_init. rewrite Hbad.
    by rewrite <- app_assoc.
Qed.

(** X6: the first load.  When the identifier is not in the cache, the host
    finds the bundle, [sdef] gives XML and the XML parses to a root, then
    [_get_parser] returns the parser of that root (its title the root's
    [title] attribute, empty when there is none), stores it under the
    identifier exactly as given, leaves every other entry alone, and has
    made the two host calls once each, in their order. *)
Theorem get_parser_first_load (h : Host) (app_name : string) (w : World)
    (c : ascii) (p xml : string) (root_el : Element) :
  _sdef_cache w !! app_name = None →
  _find_app_path h app_name = Some (String c p) →
  _get_sdef_xml h (String c p) = inr xml →
  ET_fromstring h xml = inr root_el →
  let parser := {| root := root_el;
                   title := default "" (get root_el "title");
                   suites := _parse root_el |} in
  _get_parser h app_name w
  = (inr parser,
     {| _sdef_cache := <[app_name := parser]> (_sdef_cache w);
        host_calls := host_calls w
                      ++ [FindAppPath app_name; GetSdefXml (String c p)] |})
  ∧ ∀ other, other ≠ app_name →
      _sdef_cache (_get_parser h app_name w).2 !! other
      = _sdef_cache w !! other.
Proof.
  intros Hout Hpath Hxml Hroot parser. subst parser. split.
  - rewrite (get_parser_miss h app_name w Hout). simpl.
    rewrite Hpath, Hxml. unfold SDEFParser_init. rewrite Hroot.
    by rewrite <- app_assoc.
  - intros other Hother. by apply get_parser_other.
Qed.

Lemma get_parser_load_failure_witness :
  _get_parser
    {| _find_app_path := _find_app_path host_demo;
       _get_sdef_xml := _get_sdef_xml host_bare;
       ET_fromstring := ET_fromstring host_bare |} "Demo" world_start
  = (inl (HostError "sdef: no such file"),
     {| _sdef_cache := ∅;
        host_calls := [FindAppPath "Demo";
                       GetSdefXml "/Applications/Demo.app"] |})
  ∧ _get_parser
      {| _find_app_path := _find_app_path host_demo;
         _get_sdef_xml := _get_sdef_xml host_demo;
         ET_fromstring := ET_fromstring host_bare |} "Demo" world_start
    = (inl (ValueError "Malformed SDEF XML: no element found"),
       {| _sdef_cache := ∅;
          host_calls := [FindAppPath "Demo";
                         GetSdefXml "/Applications/Demo.app"] |}).
Proof.
  split.
  - apply (proj1 (get_parser_load_failure
                    {| _find_app_path := _find_app_path host_demo;
                       _get_sdef_xml := _get_sdef_xml host_bare;
                       ET_fromstring := ET_fromstring host_bare |}
                    "Demo" world_start "/" "Applications/Demo.app"
                    eq_refl eq_refl)).
    reflexivity.
  - apply (proj2 (get_parser_load_failure
                    {| _find_app_path := _find_app_path host_demo;
                       _get_sdef_xml := _get_sdef_xml host_demo;
                       ET_fromstring := ET_fromstring host_bare |}
                    "Demo" world_start "/" "Applications/Demo.app"
                    eq_refl eq_refl) "<dictionary title='Demo'/>").
    + reflexivity.
    + reflexivity.
Defined.

Lemma get_parser_first_load_witness :
  _get_parser host_demo "Demo" world_start = (inr parser_demo, world_demo).
Proof.
  rewrite (proj1 (get_parser_first_load host_demo "Demo" world_start
                    "/" "Applications/Demo.app" "<dictionary title='Demo'/>"
                    doc_demo eq_refl eq_refl eq_refl eq_refl)).
  vm_compute. reflexivity.
Defined.

Lemma get_parser_grows (h : Host) (a b : string) (w : World)
    (parser : SDEFParser) :
  _sdef_cache (_get_parser h b w).2 !! a = Some parser →
  _sdef_cache w !! a = Some parser ∨ a = b.
Proof.
  destruct (decide (a = b)) as [->|Hne]; [by right|].
  rewrite (get_parser_other h a b w Hne). by left.
Qed.

(** X7: the cache only grows.  Over any sequence of requests, against any
    hosts, an entry that is in the cache stays and keeps its parser, and an
    entry that is in the cache afterwards was there before or belongs to an
    identifier that was requested. *)
Theorem cache_only_grows (requests : list (Host * string)) (w : World)
    (a : string) (parser : SDEFParser) :
  (_sdef_cache w !! a = Some parser →
   _sdef_cache (run_requests requests w) !! a = Some parser)
  ∧ (_sdef_cache (run_requests requests w) !! a = Some parser →
     _sdef_cache w !! a = Some parser ∨ a ∈ map snd requests).
Proof.
  split; [apply run_requests_keeps|].
  unfold run_requests. revert w.
  induction requests as [|[h b] rest IH]; intros w Hafter; simpl in *.
  - by left.
  - destruct (IH _ Hafter) as [Hmid|Hrest].
    + destruct (get_parser_grows h a b w parser Hmid) as [Hw| ->].
      * by left.
      * right. left.
    + right. by right.
Qed.

Lemma cache_only_grows_witness :
  _sdef_cache
    (run_requests [(host_bare, "Other"); (host_demo, "Other")] world_demo)
  !! "Demo" = Some parser_demo
  ∧ (_sdef_cache world_start !! "Demo" = Some parser_demo
     ∨ "Demo" ∈ map snd [(host_bare, "Other"); (host_demo, "Demo")]).
Proof.
  split.
  - apply (proj1 (cache_only_grows
                    [(host_bare, "Other"); (host_demo, "Other")]
                    world_demo "Demo" parser_demo)).
    reflexivity.
  - apply (proj2 (cache_only_grows
                    [(host_bare, "Other"); (host_demo, "Demo")]
                    world_start "Demo" parser_demo)).
    vm_compute. reflexivity.
Defined.

(** A tool is [_get_parser] followed by an answer computed from the
    parser. *)
Lemma tool_unfold (h : Host) (app_name : string) (w : World)
    (answer : SDEFParser → string) :
  (parser ← _get_parser h app_name; mret (answer parser)) w
  = match _get_parser h app_name w with
    | (inl e, w') => (inl e, w')
    | (inr parser, w') => (inr (answer parser), w')
    end.
Proof. reflexivity. Qed.

(** X8: one successful overview serves all the tools.  When
    [get_app_suites] has answered, the dictionary is in the cache under the
    identifier, and every tool called later with that identifier, on any
    host and with any query, answers from that parser and leaves the process
    state as it is: no host call is made. *)
Theorem overview_then_tools {L : StrLower} (h : Host) (app_name text : string)
    (w w' : World) :
  get_app_suites h app_name w = (inr text, w') →
  ∃ parser,
    _sdef_cache w' !! app_name = Some parser
    ∧ text = app_suites_text parser app_name
    ∧ ∀ h' query,
        get_app_suites h' app_name w'
        = (inr (app_suites_text parser app_name), w')
        ∧ get_suite_detail h' app_name query w'
          = (inr (suite_detail_text parser query), w')
        ∧ get_command h' app_name query w'
          = (inr (command_text parser query), w')
        ∧ get_class h' app_name query w'
          = (inr (class_text parser query), w')
        ∧ get_enumeration h' app_name query w'
          = (inr (enumeration_text parser query), w')
        ∧ search_dictionary h' app_name query w'
          = (inr (search_text parser app_name query), w').
Proof.
  unfold get_app_suites. rewrite tool_unfold.
  destruct (_get_parser h app_name w) as [[e|parser] w1] eqn:Hload; [done|].
  intros [= <- <-]. exists parser.
  pose proof (get_parser_ok_cached h app_name w w1 parser Hload) as Hin.
  split; [exact Hin|]. split; [done|]. intros h' query.
  unfold get_suite_detail, get_command, get_class, get_enumeration,
    search_dictionary.
  by rewrite !(tool_on_loaded h' app_name w1 parser _ Hin).
Qed.

Lemma overview_then_tools_witness :
  ∃ parser,
    _sdef_cache world_demo !! "Demo" = Some parser
    ∧ app_suites_text parser_demo "Demo" = app_suites_text parser "Demo"
    ∧ ∀ h' query,
        get_app_suites h' "Demo" world_demo
        = (inr (app_suites_text parser "Demo"), world_demo)
        ∧ get_suite_detail (L := ascii_lower) h' "Demo" query world_demo
          = (inr (suite_detail_text (L := ascii_lower) parser query),
              world_demo)
        ∧ get_command (L := ascii_lower) h' "Demo" query world_demo
          = (inr (command_text (L := ascii_lower) parser query), world_demo)
        ∧ get_class (L := ascii_lower) h' "Demo" query world_demo
          = (inr (class_text (L := ascii_lower) parser query), world_demo)
        ∧ get_enumeration (L := ascii_lower) h' "Demo" query world_demo
          = (inr (enumeration_text (L := ascii_lower) parser query), world_demo)
        ∧ search_dictionary (L := ascii_lower) h' "Demo" query world_demo
          = (inr (search_text (L := ascii_lower) parser "Demo" query),
              world_demo).
Proof.
  apply (overview_then_tools (L := ascii_lower) host_demo "Demo"
           (app_suites_text parser_demo "Demo") world_start world_demo).
  vm_compute. reflexivity.
Defined.

(** X9: a tool fails as the load fails.  When [_get_parser] raises, each of
    the six tools raises the same exception and leaves the process state
    that [_get_parser] left, whatever the query. *)
Theorem tools_raise_as_load {L : StrLower} (h : Host) (app_name query : string)
    (w w' : World) (e : Exception) :
  _get_parser h app_name w = (inl e, w') →
  get_app_suites h app_name w = (inl e, w')
  ∧ get_suite_detail h app_name query w = (inl e, w')
  ∧ get_command h app_name query w = (inl e, w')
  ∧ get_class h app_name query w = (inl e, w')
  ∧ get_enumeration h app_name query w = (inl e, w')
  ∧ search_dictionary h app_name query w = (inl e, w').
Proof.
  intros Hfail.
  unfold get_app_suites, get_suite_detail, get_command, get_class,
    get_enumeration, search_dictionary.
  rewrite !tool_unfold, Hfail. done.
Qed.

Lemma tools_raise_as_load_witness :
  get_app_suites host_bare "Demo" world_start
  = (inl (ValueError ("App 'Demo' not found. "
            +:+ "Use list_scriptable_apps() to see available apps.")),
     {| _sdef_cache := ∅; host_calls := [FindAppPath "Demo"] |})
  ∧ search_dictionary (L := ascii_lower) host_bare "Demo" "tab" world_start
    = (inl (ValueError ("App 'Demo' not found. "
              +:+ "Use list_scriptable_apps() to see available apps.")),
       {| _sdef_cache := ∅; host_calls := [FindAppPath "Demo"] |}).
Proof.
  pose proof (tools_raise_as_load (L := ascii_lower) host_bare "Demo" "tab"
                world_start
                {| _sdef_cache := ∅; host_calls := [FindAppPath "Demo"] |}
                (ValueError ("App 'Demo' not found. "
                   +:+ "Use list_scriptable_apps() to see available apps."))
                eq_refl) as (H1 & _ & _ & _ & _ & H6).
  split; [exact H1|exact H6].
Defined.

(** ** Lookups *)

Lemma command_results_spec {L : StrLower} (parser : SDEFParser)
    (command_name : string) :
  command_results parser command_name =
    flat_map
      (λ suite, map (λ cmd, _fmt_command_detail cmd (suite_name suite))
                  (List.filter (λ cmd, same_name (cmd_name cmd) command_name)
                     (suite_commands suite)))
      (suites parser).
Proof.
  unfold command_results.
  apply (lookup_loops_spec suite_commands
           (λ cmd, same_name (cmd_name cmd) command_name)
           _fmt_command_detail (suites parser) []).
Qed.

(** The names a not-found answer lists: each once, in ascending order, and
    exactly the names the suites hold. *)
Lemma sorted_names_spec {A} (items : Suite → list A) (name_of : A → string)
    (all : list Suite) :
  let names :=
    Py.sorted_set (flat_map (λ suite, map name_of (items suite)) all) in
  StronglySorted String.le names
  ∧ NoDup names
  ∧ ∀ name,
      name ∈ names
      ↔ ∃ suite x, suite ∈ all ∧ x ∈ items suite ∧ name_of x = name.
Proof.
  intros names. subst names.
  destruct (sorted_set_spec
              (flat_map (λ suite, map name_of (items suite)) all))
    as (Hsorted & Hnodup & Helem).
  split; [exact Hsorted|]. split; [exact Hnodup|].
  intros name. rewrite Helem, list_elem_of_In, in_flat_map. split.
  - intros (suite & Hs & Hname).
    apply in_map_iff in Hname as (x & <- & Hx).
    exists suite, x. by rewrite !list_elem_of_In.
  - intros (suite & x & Hs & Hx & <-).
    exists suite. rewrite <- list_elem_of_In. split; [done|].
    apply in_map_iff. exists x. by rewrite <- list_elem_of_In.
Qed.

(** X10: on a loaded dictionary [get_command] answers with the blocks of
    all the commands, of all suites, whose name equals the query once
    [str.lower] has been applied to both: suite after suite and, in a
    suite, command after command, each block headed by the command's name
    and its suite, the blocks separated by an empty line. *)
Theorem get_command_multi_hit {L : StrLower} (h : Host)
    (app_name command_name : string) (w : World) (parser : SDEFParser)
    (suite : Suite) (cmd : Command) :
  _sdef_cache w !! app_name = Some parser →
  suite ∈ suites parser →
  cmd ∈ suite_commands suite →
  str_lower (cmd_name cmd) = str_lower command_name →
  command_results parser command_name =
    flat_map
      (λ suite, map (λ cmd, _fmt_command_detail cmd (suite_name suite))
                  (List.filter (λ cmd, same_name (cmd_name cmd) command_name)
                     (suite_commands suite)))
      (suites parser)
  ∧ _fmt_command_detail cmd (suite_name suite)
      ∈ command_results parser command_name
  ∧ get_command h app_name command_name w
    = (inr (Py.join (Py.nl +:+ Py.nl) (command_results parser command_name)),
       w).
Proof.
  intros Hin Hs Hc Hname.
  assert (_fmt_command_detail cmd (suite_name suite)
          ∈ command_results parser command_name) as Hblock.
  { rewrite command_results_spec. apply lookup_loops_elem.
    exists suite, cmd. repeat split; [done..|]. by apply same_name_spec. }
  split; [apply command_results_spec|]. split; [exact Hblock|].
  unfold get_command.
  rewrite (tool_on_loaded h app_name w parser
             (λ p, command_text p command_name) Hin).
  unfold command_text.
  destruct (command_results parser command_name); [|done].
  by apply elem_of_nil in Hblock.
Qed.

Lemma get_command_multi_hit_witness :
  get_command (L := ascii_lower) host_bare "Demo" "CLOSE" world_demo
  = (inr ("COMMAND: close  [Standard Suite]" +:+ Py.nl
          +:+ "  Close a document." +:+ Py.nl
          +:+ "  Direct param: specifier" +:+ Py.nl
          +:+ "  Params:" +:+ Py.nl
          +:+ "    saving: save options [optional]"), world_demo).
Proof.
  rewrite (proj2 (proj2 (get_command_multi_hit (L := ascii_lower) host_bare
                           "Demo" "CLOSE" world_demo parser_demo suite_standard
                           (List.nth 0 (suite_commands suite_standard)
                              (mkCommand "" "" "" None [] None))
                           eq_refl demo_suite_standard
                           ltac:(apply list_elem_of_In; vm_compute; left;
                                 reflexivity)
                           eq_refl))).
  vm_compute. reflexivity.
Defined.

(** X11: on a loaded dictionary [get_enumeration] answers with the blocks
    of all the enumerations, of all suites, whose name equals the query once
    [str.lower] has been applied to both, in document order and separated
    by an empty line. *)
Theorem get_enumeration_multi_hit {L : StrLower} (h : Host)
    (app_name enum_name' : string) (w : World) (parser : SDEFParser)
    (suite : Suite) (enum : Enumeration) :
  _sdef_cache w !! app_name = Some parser →
  suite ∈ suites parser →
  enum ∈ suite_enumerations suite →
  str_lower (enum_name enum) = str_lower enum_name' →
  enumeration_results parser enum_name' =
    flat_map
      (λ suite, map (λ enum, _fmt_enum_detail enum (suite_name suite))
                  (List.filter (λ enum, same_name (enum_name enum) enum_name')
                     (suite_enumerations suite)))
      (suites parser)
  ∧ _fmt_enum_detail enum (suite_name suite)
      ∈ enumeration_results parser enum_name'
  ∧ get_enumeration h app_name enum_name' w
    = (inr (Py.join (Py.nl +:+ Py.nl)
              (enumeration_results parser enum_name')), w).
Proof.
  intros Hin Hs He Hname.
  assert (_fmt_enum_detail enum (suite_name suite)
          ∈ enumeration_results parser enum_name') as Hblock.
  { rewrite enumeration_results_spec. apply lookup_loops_elem.
    exists suite, enum. repeat split; [done..|]. by apply same_name_spec. }
  split; [apply enumeration_results_spec|]. split; [exact Hblock|].
  unfold get_enumeration.
  rewrite (tool_on_loaded h app_name w parser
             (λ p, enumeration_text p enum_name') Hin).
  unfold enumeration_text.
  destruct (enumeration_results parser enum_name'); [|done].
  by apply elem_of_nil in Hblock.
Qed.

Lemma get_enumeration_multi_hit_witness :
  get_enumeration (L := ascii_lower) host_bare "Demo" "Save Options" world_demo
  = (inr ("ENUM: save options  [Standard Suite]" +:+ Py.nl
          +:+ "  yes" +:+ Py.nl
          +:+ "  no" +:+ Py.nl
          +:+ "  ask — Ask the user."), world_demo).
Proof.
  rewrite (proj2 (proj2 (get_enumeration_multi_hit (L := ascii_lower) host_bare
                           "Demo" "Save Options" world_demo parser_demo
                           suite_standard enum_save_options
                           eq_refl demo_suite_standard
                           ltac:(apply list_elem_of_In; vm_compute; left;
                                 reflexivity)
                           eq_refl))).
  vm_compute. reflexivity.
Defined.

(** X12: on a loaded dictionary, when no command of any suite has the
    queried name (names are compared after [str.lower]), [get_command]
    answers with the not-found line, which repeats the query, followed by
    the names of all the commands of the document: each name once, in
    ascending order of their characters, and no other name. *)
Theorem command_miss_lists_all {L : StrLower} (h : Host)
    (app_name command_name : string) (w : World) (parser : SDEFParser) :
  _sdef_cache w !! app_name = Some parser →
  (∀ suite cmd,
     suite ∈ suites parser → cmd ∈ suite_commands suite →
     str_lower (cmd_name cmd) ≠ str_lower command_name) →
  get_command h app_name command_name w
  = (inr ("Command '" +:+ command_name +:+ "' not found." +:+ Py.nl
          +:+ "Available: " +:+ Py.join ", " (all_cmds parser)), w)
  ∧ StronglySorted String.le (all_cmds parser)
  ∧ NoDup (all_cmds parser)
  ∧ ∀ name,
      name ∈ all_cmds parser
      ↔ ∃ suite cmd,
          suite ∈ suites parser ∧ cmd ∈ suite_commands suite
          ∧ cmd_name cmd = name.
Proof.
  intros Hin Hnone.
  assert (command_results parser command_name = []) as Hres.
  { rewrite command_results_spec. apply lookup_loops_nil.
    intros suite cmd Hs Hc.
    destruct (same_name (cmd_name cmd) command_name) eqn:E; [|done].
    apply same_name_spec in E. by destruct (Hnone suite cmd Hs Hc). }
  split.
  - unfold get_command.
    rewrite (tool_on_loaded h app_name w parser
               (λ p, command_text p command_name) Hin).
    unfold command_text. by rewrite Hres.
  - apply (sorted_names_spec suite_commands cmd_name (suites parser)).
Qed.

Lemma command_miss_lists_all_witness :
  get_command (L := ascii_lower) host_bare "Demo" "make" world_demo
  = (inr ("Command 'make' not found." +:+ Py.nl
          +:+ "Available: close, quit"), world_demo).
Proof.
  assert (∀ suite cmd,
            suite ∈ suites parser_demo → cmd ∈ suite_commands suite →
            @str_lower ascii_lower (cmd_name cmd) ≠ @str_lower ascii_lower
                "make") as Hnone.
  { intros suite cmd Hs Hc.
    apply list_elem_of_In in Hs. vm_compute in Hs.
    destruct Hs as [<-|[<-|[]]]; apply list_elem_of_In in Hc;
      vm_compute in Hc; destruct Hc as [<-|[]]; vm_compute; discriminate. }
  rewrite (proj1 (command_miss_lists_all (L := ascii_lower) host_bare "Demo"
                    "make" world_demo parser_demo eq_refl Hnone)).
  vm_compute. reflexivity.
Defined.

(** X13: on a loaded dictionary, when no class and no class extension of
    any suite has the queried name (names are compared after
    [str.lower]), [get_class] answers with the not-found line followed by
    the names of all the classes and class extensions of the document: each
    name once (names are listed as written: two that differ in letter case
    are two names), in ascending order of their characters, and no other
    name. *)
Theorem class_miss_lists_all {L : StrLower} (h : Host)
    (app_name class_name : string) (w : World) (parser : SDEFParser) :
  _sdef_cache w !! app_name = Some parser →
  (∀ suite cls,
     suite ∈ suites parser → cls ∈ suite_classes suite →
     str_lower (cls_name cls) ≠ str_lower class_name) →
  get_class h app_name class_name w
  = (inr ("Class '" +:+ class_name +:+ "' not found." +:+ Py.nl
          +:+ "Available: " +:+ Py.join ", " (all_classes parser)), w)
  ∧ StronglySorted String.le (all_classes parser)
  ∧ NoDup (all_classes parser)
  ∧ ∀ name,
      name ∈ all_classes parser
      ↔ ∃ suite cls,
          suite ∈ suites parser ∧ cls ∈ suite_classes suite
          ∧ cls_name cls = name.
Proof.
  intros Hin Hnone.
  assert (class_results parser class_name = []) as Hres.
  { rewrite class_results_spec. apply lookup_loops_nil.
    intros suite cls Hs Hc.
    destruct (same_name (cls_name cls) class_name) eqn:E; [|done].
    apply same_name_spec in E. by destruct (Hnone suite cls Hs Hc). }
  split.
  - unfold get_class.
    rewrite (tool_on_loaded h app_name w parser
               (λ p, class_text p class_name) Hin).
    unfold class_text. by rewrite Hres.
  - apply (sorted_names_spec suite_classes cls_name (suites parser)).
Qed.

Lemma class_miss_lists_all_witness :
  get_class (L := ascii_lower) host_bare "Demo" "tab" world_demo
  = (inr ("Class 'tab' not found." +:+ Py.nl
          +:+ "Available: Document, document, window"), world_demo).
Proof.
  assert (∀ suite cls,
            suite ∈ suites parser_demo → cls ∈ suite_classes suite →
            @str_lower ascii_lower (cls_name cls) ≠ @str_lower ascii_lower
                "tab") as Hnone.
  { intros suite cls Hs Hc.
    apply list_elem_of_In in Hs. vm_compute in Hs.
    destruct Hs as [<-|[<-|[]]]; apply list_elem_of_In in Hc;
      vm_compute in Hc; [|destruct Hc].
    destruct Hc as [<-|[<-|[<-|[]]]]; vm_compute; discriminate. }
  rewrite (proj1 (class_miss_lists_all (L := ascii_lower) host_bare "Demo" "tab"
                    world_demo parser_demo eq_refl Hnone)).
  vm_compute. reflexivity.
Defined.

Lemma suite_detail_loop_none {L : StrLower} (suite_name' : string)
    (all : list Suite) :
  Forall (λ s, str_lower (suite_name s) ≠ str_lower suite_name') all →
  suite_detail_loop suite_name' all = None.
Proof.
  induction 1 as [|s rest Hs _ IH]; simpl; [done|].
  destruct (same_name (suite_name s) suite_name') eqn:E; [|exact IH].
  by apply same_name_spec in E.
Qed.

(** X14: on a loaded dictionary, when no suite has the queried name (names
    are compared after [str.lower]), [get_suite_detail] answers with the
    not-found line, which repeats the query, followed by the names of all
    the suites as the document has them: in document order, not sorted, a
    repeated name repeated. *)
Theorem suite_detail_miss {L : StrLower} (h : Host)
    (app_name suite_name' : string) (w : World) (parser : SDEFParser) :
  _sdef_cache w !! app_name = Some parser →
  Forall (λ s, str_lower (suite_name s) ≠ str_lower suite_name')
    (suites parser) →
  get_suite_detail h app_name suite_name' w
  = (inr ("Suite '" +:+ suite_name' +:+ "' not found. Available: "
          +:+ Py.join ", " (map suite_name (suites parser))), w).
Proof.
  intros Hin Hnone. unfold get_suite_detail.
  rewrite (tool_on_loaded h app_name w parser
             (λ p, suite_detail_text p suite_name') Hin).
  unfold suite_detail_text.
  by rewrite (suite_detail_loop_none _ _ Hnone).
Qed.

Lemma suite_detail_miss_witness :
  get_suite_detail (L := ascii_lower) host_bare "Demo" "Text Suite" world_demo
  = (inr "Suite 'Text Suite' not found. Available: Standard Suite, standard suite",
     world_demo).
Proof.
  apply (suite_detail_miss (L := ascii_lower) host_bare "Demo" "Text Suite"
           world_demo parser_demo eq_refl).
  vm_compute. repeat constructor; discriminate.
Defined.

(** ** Renderings *)

Lemma append_assoc (a b c : string) : (a +:+ b) +:+ c = a +:+ (b +:+ c).
Proof.
  induction a as [|x a IH]; [done|]. by rewrite !append_cons, IH.
Qed.

Lemma all_space_cons (a : ascii) (s1 : string) :
  Py.all_space (String a s1) =
    if Py.is_space a then Py.all_space s1
    else
      match s1 with
      | EmptyString => false
      | String b s2 =>
          if Py.is_space2 a b then Py.all_space s2
          else
            match s2 with
            | EmptyString => false
            | String c s3 =>
                if Py.is_space3 a b c then Py.all_space s3 else false
            end
      end.
Proof. reflexivity. Qed.

Lemma all_space_app_bounded (n : nat) (a b : string) :
  (String.length a <= n)%nat →
  Py.all_space a = true →
  Py.all_space (a +:+ b) = Py.all_space b.
Proof.
  revert a. induction n as [|n IH]; intros a Hlen Ha.
  - destruct a; [done|simpl in Hlen; lia].
  - destruct a as [|x a1]; [done|].
    rewrite append_cons, all_space_cons. rewrite all_space_cons in Ha.
    simpl in Hlen.
    destruct (Py.is_space x); [apply IH; [lia|done]|].
    destruct a1 as [|y a2]; [done|]. rewrite append_cons.
    simpl in Hlen.
    destruct (Py.is_space2 x y); [apply IH; [lia|done]|].
    destruct a2 as [|z a3]; [done|]. rewrite append_cons.
    simpl in Hlen.
    destruct (Py.is_space3 x y z); [apply IH; [lia|done]|done].
Qed.

(** White space followed by a text is white space exactly when the text
    is. *)
Lemma all_space_app (a b : string) :
  Py.all_space a = true → Py.all_space (a +:+ b) = Py.all_space b.
Proof. apply (all_space_app_bounded (String.length a)). done. Qed.

Lemma rstrip_cons (c : ascii) (s : string) :
  Py.rstrip (String c s) =
    if Py.all_space (String c s) then EmptyString
    else String c (Py.rstrip s).
Proof. reflexivity. Qed.

(** What [rstrip] takes away is white space. *)
Lemma rstrip_split (s : string) :
  ∃ w, s = Py.rstrip s +:+ w ∧ Py.all_space w = true.
Proof.
  induction s as [|c s IH]; [by exists ""|].
  rewrite rstrip_cons. destruct (Py.all_space (String c s)) eqn:E.
  - by exists (String c s).
  - destruct IH as (w & Hw & Hs). exists w. split; [|done].
    rewrite append_cons. by rewrite <- Hw.
Qed.

(** What [rstrip] returns has no white space left at its end: stripping it
    again changes nothing. *)
Lemma rstrip_idem (s : string) : Py.rstrip (Py.rstrip s) = Py.rstrip s.
Proof.
  induction s as [|c s IH]; [done|].
  rewrite rstrip_cons. destruct (Py.all_space (String c s)) eqn:E; [done|].
  rewrite rstrip_cons, IH.
  destruct (Py.all_space (String c (Py.rstrip s))) eqn:E'; [|done].
  destruct (rstrip_split s) as (w & Hw & Hs).
  assert (Py.all_space (String c s) = true) as Habs; [|congruence].
  rewrite Hw at 1. rewrite <- append_cons. by rewrite all_space_app.
Qed.

Ltac split_tests :=
  repeat match goal with
         | |- context [(?a =? ?b)%nat] => destruct (a =? b)%nat
         | |- context [(?a <=? ?b)%nat] => destruct (a <=? b)%nat
         end;
  reflexivity.

(** A byte below 128 is a character of its own, never the second or third
    byte of a white space character: when a text that goes on with such a
    byte is all white space, so is the part from that byte on. *)
Lemma all_space_tail_bounded (n : nat) (s t : string) (c : ascii) :
  (String.length s <= n)%nat →
  (nat_of_ascii c < 128)%nat →
  Py.all_space (s +:+ String c t) = true →
  Py.all_space (String c t) = true.
Proof.
  intros Hlen Hc. revert s Hlen. induction n as [|n IH]; intros s Hlen.
  - destruct s; [done|simpl in Hlen; lia].
  - destruct s as [|x s1]; [done|].
    rewrite append_cons, all_space_cons. simpl in Hlen.
    destruct (Py.is_space x); [apply IH; lia|].
    destruct s1 as [|y s2].
    + change ("" +:+ String c t) with (String c t). cbv beta iota.
      assert (Py.is_space2 x c = false) as ->.
      { unfold Py.is_space2.
        destruct (Nat.eqb_spec (nat_of_ascii c) 133); [lia|].
        destruct (Nat.eqb_spec (nat_of_ascii c) 160); [lia|].
        split_tests. }
      destruct t as [|z t']; [done|].
      assert (Py.is_space3 x c z = false) as ->; [|done].
      unfold Py.is_space3.
      destruct (Nat.eqb_spec (nat_of_ascii c) 154); [lia|].
      destruct (Nat.eqb_spec (nat_of_ascii c) 128); [lia|].
      destruct (Nat.eqb_spec (nat_of_ascii c) 129); [lia|].
      split_tests.
    + rewrite append_cons. simpl in Hlen.
      destruct (Py.is_space2 x y); [apply IH; lia|].
      destruct s2 as [|z s3].
      * change ("" +:+ String c t) with (String c t). cbv beta iota.
        assert (Py.is_space3 x y c = false) as ->; [|done].
        unfold Py.is_space3.
        destruct (Nat.eqb_spec (nat_of_ascii c) 128); [lia|].
        destruct (Nat.eqb_spec (nat_of_ascii c) 159); [lia|].
        destruct (Nat.eqb_spec (nat_of_ascii c) 168); [lia|].
        destruct (Nat.eqb_spec (nat_of_ascii c) 169); [lia|].
        destruct (Nat.eqb_spec (nat_of_ascii c) 175); [lia|].
        destruct (Nat.leb_spec 128 (nat_of_ascii c)); [lia|].
        split_tests.
      * rewrite append_cons. simpl in Hlen.
        destruct (Py.is_space3 x y z); [apply IH; lia|done].
Qed.

(** White space is only taken from the end: a text before a part that
    starts with a byte below 128 and is not all white space stays whole. *)
Lemma rstrip_app_keep (s t : string) (c : ascii) :
  (nat_of_ascii c < 128)%nat →
  Py.all_space (String c t) = false →
  Py.rstrip (s +:+ String c t) = s +:+ Py.rstrip (String c t).
Proof.
  intros Hc Ht. induction s as [|x s IH]; [done|].
  rewrite !append_cons, rstrip_cons, IH.
  destruct (Py.all_space (String x (s +:+ String c t))) eqn:E; [|done].
  rewrite <- append_cons in E.
  apply (all_space_tail_bounded (String.length (String x s))) in E;
    [|done..].
  congruence.
Qed.

(** X15: the rendering of a suite ends in no white space, of one byte or
    of more ([rstrip] finds nothing left to take); and a suite without
    description, commands, classes and enumerations renders as its heading
    line alone, with no section title and no empty line after it. *)
Theorem fmt_suite_detail_shape (suite : Suite) :
  Py.rstrip (_fmt_suite_detail suite) = _fmt_suite_detail suite
  ∧ (suite_description suite = "" →
     suite_commands suite = [] →
     suite_classes suite = [] →
     suite_enumerations suite = [] →
     _fmt_suite_detail suite = "═══ " +:+ suite_name suite +:+ " ═══").
Proof.
  split.
  - unfold _fmt_suite_detail. apply rstrip_idem.
  - intros Hd Hc Hk He. unfold _fmt_suite_detail.
    rewrite Hd, Hc, Hk, He.
    change (Py.rstrip (("═══ " +:+ suite_name suite +:+ " ═══")
                       +:+ Py.nl +:+ "")
            = "═══ " +:+ suite_name suite +:+ " ═══").
    rewrite <- (append_assoc "═══ " (suite_name suite) " ═══").
    rewrite append_assoc.
    change (" ═══" +:+ Py.nl +:+ "")
      with (String " " ("═══" +:+ Py.nl +:+ "")).
    rewrite rstrip_app_keep; [|vm_compute; lia|reflexivity].
    by rewrite <- append_assoc.
Qed.

Lemma fmt_suite_detail_shape_witness :
  _fmt_suite_detail (suite_empty "Text Suite") = "═══ Text Suite ═══".
Proof.
  apply (proj2 (fmt_suite_detail_shape (suite_empty "Text Suite")));
    reflexivity.
Defined.

(** ** Searches *)

Lemma or_iff_both (P Q R S : Prop) :
  (P ↔ R) → (Q ↔ S) → (P ∨ Q ↔ R ∨ S).
Proof. tauto. Qed.

Lemma ex_iff_each {A} (P Q : A → Prop) :
  (∀ x, P x ↔ Q x) → ((∃ x, P x) ↔ ∃ x, Q x).
Proof. intros H. split; intros [x Hx]; exists x; by apply H. Qed.

Lemma elem_of_flat_map {A B} (f : A → list B) (xs : list A) (y : B) :
  y ∈ flat_map f xs ↔ ∃ x, x ∈ xs ∧ y ∈ f x.
Proof.
  rewrite list_elem_of_In, in_flat_map.
  split; intros (x & Hx & Hy); exists x; by rewrite ?list_elem_of_In in *.
Qed.

Lemma elem_of_map_filter {A B} (f : A → B) (p : A → bool) (xs : list A)
    (y : B) :
  y ∈ map f (List.filter p xs) ↔ ∃ x, x ∈ xs ∧ p x = true ∧ y = f x.
Proof.
  rewrite list_elem_of_In, in_map_iff. split.
  - intros (x & <- & Hx). apply filter_In in Hx as [Hx Hp].
    exists x. by rewrite list_elem_of_In.
  - intros (x & Hx & Hp & ->). exists x. split; [done|].
    apply filter_In. by rewrite <- list_elem_of_In.
Qed.

(** The lines a class adds to a search. *)
Lemma class_step_elem {L : StrLower} (query sn line : string) (cls : ClassDef) :
  line ∈ class_step (str_lower query) sn [] cls
  ↔ (ci_in_text query (cls_name cls) (cls_description cls)
     ∧ line = cls_hit sn cls)
    ∨ ∃ prop, prop ∈ cls_properties cls
              ∧ ci_in_text query (prop_name prop) (prop_description prop)
              ∧ line = prop_hit sn cls prop.
Proof.
  rewrite class_step_spec. simpl. rewrite elem_of_app, elem_of_map_filter.
  apply or_iff_both.
  - destruct (text_matches (str_lower query) (cls_name cls)
                (cls_description cls)) eqn:E.
    + apply text_matches_spec in E. rewrite list_elem_of_singleton.
      split; [by intros ->|by intros [_ ->]].
    + split; [by intros ?%elem_of_nil|].
      intros [Hm _]. apply text_matches_spec in Hm. congruence.
  - split; intros (prop & Hp & Hm & ->); exists prop;
      by rewrite text_matches_spec in *.
Qed.

(** The lines an enumeration adds to a search. *)
Lemma enum_step_elem {L : StrLower} (query sn line : string)
    (enum : Enumeration) :
  line ∈ enum_step (str_lower query) sn [] enum
  ↔ (ci_substring query (enum_name enum) ∧ line = enum_hit sn enum)
    ∨ (¬ ci_substring query (enum_name enum)
       ∧ ∃ v, v ∈ enum_values enum
              ∧ ci_substring query (val_name v)
              ∧ line = val_hit sn enum v).
Proof.
  rewrite enum_step_spec. simpl.
  destruct (Py.contains (str_lower query) (str_lower (enum_name enum))) eqn:E.
  - apply contains_lower_spec in E. rewrite list_elem_of_singleton. split.
    + intros ->. by left.
    + intros [[_ ->]|[Hn _]]; [done|]. by destruct Hn.
  - apply contains_lower_false in E. rewrite elem_of_map_filter. split.
    + intros (v & Hv & Hm & ->). right. split; [done|].
      exists v. by rewrite <- contains_lower_spec.
    + intros [[Hm _]|[_ (v & Hv & Hm & ->)]]; [done|].
      exists v. by rewrite contains_lower_spec.
Qed.

(** The lines of a search, by what they come from. *)
Lemma search_hits_member {L : StrLower} (parser : SDEFParser)
    (query line : string) :
  line ∈ search_hits parser query
  ↔ ∃ suite, suite ∈ suites parser
     ∧ ((∃ cmd, cmd ∈ suite_commands suite
                ∧ ci_in_text query (cmd_name cmd) (cmd_description cmd)
                ∧ line = cmd_hit (suite_name suite) cmd)
        ∨ (∃ cls, cls ∈ suite_classes suite
                  ∧ ((ci_in_text query (cls_name cls) (cls_description cls)
                      ∧ line = cls_hit (suite_name suite) cls)
                     ∨ ∃ prop, prop ∈ cls_properties cls
                               ∧ ci_in_text query (prop_name prop)
                                   (prop_description prop)
                               ∧ line = prop_hit (suite_name suite) cls prop))
        ∨ (∃ enum, enum ∈ suite_enumerations suite
                   ∧ ((ci_substring query (enum_name enum)
                       ∧ line = enum_hit (suite_name suite) enum)
                      ∨ (¬ ci_substring query (enum_name enum)
                         ∧ ∃ v, v ∈ enum_values enum
                                ∧ ci_substring query (val_name v)
                                ∧ line = val_hit (suite_name suite) enum v)))).
Proof.
  rewrite search_hits_spec, elem_of_flat_map.
  apply ex_iff_each. intros suite. apply and_iff_compat_l.
  rewrite !elem_of_app, elem_of_map_filter, !elem_of_flat_map.
  apply or_iff_both; [|apply or_iff_both].
  - split; intros (cmd & Hc & Hm & ->); exists cmd;
      by rewrite text_matches_spec in *.
  - apply ex_iff_each. intros cls. apply and_iff_compat_l.
    apply class_step_elem.
  - apply ex_iff_each. intros enum. apply and_iff_compat_l.
    apply enum_step_elem.
Qed.


(** X16: what a search finds, and nothing else.  A line is among the hits
    exactly when it is the command line of a command whose name or
    description contains the query, or the class line of such a class, or
    the property line of a property whose name or description contains it,
    or the enumeration line of an enumeration whose name contains it, or the
    value line of a value whose name contains it while the name of its
    enumeration does not; the query and the texts are compared after
    [str.lower] throughout, and the line carries the name of the suite the
    item is in.  The hits follow the
    document: those of the earlier suites come before those of the later
    ones. *)
Theorem search_hits_elem {L : StrLower} (parser : SDEFParser)
    (query line : string) :
  (line ∈ search_hits parser query
  ↔ ∃ suite, suite ∈ suites parser
     ∧ ((∃ cmd, cmd ∈ suite_commands suite
                ∧ ci_in_text query (cmd_name cmd) (cmd_description cmd)
                ∧ line = cmd_hit (suite_name suite) cmd)
        ∨ (∃ cls, cls ∈ suite_classes suite
                  ∧ ((ci_in_text query (cls_name cls) (cls_description cls)
                      ∧ line = cls_hit (suite_name suite) cls)
                     ∨ ∃ prop, prop ∈ cls_properties cls
                               ∧ ci_in_text query (prop_name prop)
                                   (prop_description prop)
                               ∧ line = prop_hit (suite_name suite) cls prop))
        ∨ (∃ enum, enum ∈ suite_enumerations suite
                   ∧ ((ci_substring query (enum_name enum)
                       ∧ line = enum_hit (suite_name suite) enum)
                      ∨ (¬ ci_substring query (enum_name enum)
                         ∧ ∃ v, v ∈ enum_values enum
                                ∧ ci_substring query (val_name v)
                                ∧ line = val_hit (suite_name suite) enum v)))))
  ∧ ∀ first later,
      suites parser = first ++ later →
      search_hits parser query
      = search_hits {| root := root parser; title := title parser;
                       suites := first |} query
        ++ search_hits {| root := root parser; title := title parser;
                          suites := later |} query.
Proof.
  split; [apply search_hits_member|].
  intros first later Hsuites.
  rewrite !search_hits_spec, Hsuites. simpl.
  apply flat_map_app.
Qed.

Lemma search_hits_elem_witness :
  search_hits (L := ascii_lower) parser_demo "quit"
  = search_hits (L := ascii_lower) {| root := doc_demo; title := "Demo";
                   suites := [suite_standard] |} "quit"
    ++ search_hits (L := ascii_lower) {| root := doc_demo; title := "Demo";
                      suites := List.tl (suites parser_demo) |} "quit".
Proof.
  apply (proj2 (search_hits_elem (L := ascii_lower) parser_demo "quit" "")
           [suite_standard] (List.tl (suites parser_demo))).
  reflexivity.
Defined.



Lemma contains_empty (s : string) : Py.contains "" s = true.
Proof. rewrite contains_unfold. by destruct s. Qed.

Lemma filter_all {A} (p : A → bool) (xs : list A) :
  (∀ x, p x = true) → List.filter p xs = xs.
Proof.
  intros Hp. induction xs as [|x xs IH]; simpl; [done|].
  by rewrite Hp, IH.
Qed.

Lemma flat_map_singleton {A B} (f : A → B) (xs : list A) :
  flat_map (λ x, [f x]) xs = map f xs.
Proof. induction xs as [|x xs IH]; simpl; [done|]. by rewrite IH. Qed.

(** X18: the empty query matches everything that has a name.  Its hits
    are, suite after suite, one command line for every command, then for
    every class its class line followed by one property line for each of
    its properties, then one enumeration line for every enumeration; no
    value line is ever among them. *)
Theorem search_empty_query {L : StrLower} (parser : SDEFParser) :
  search_hits parser ""
  = flat_map
      (λ suite,
         map (cmd_hit (suite_name suite)) (suite_commands suite)
         ++ flat_map
              (λ cls, cls_hit (suite_name suite) cls
                      :: map (prop_hit (suite_name suite) cls)
                           (cls_properties cls))
              (suite_classes suite)
         ++ map (enum_hit (suite_name suite)) (suite_enumerations suite))
      (suites parser).
Proof.
  rewrite search_hits_spec, str_lower_empty.
  apply flat_map_ext. intros suite.
  assert (∀ name description, text_matches "" name description = true)
    as Hall.
  { intros name description. unfold text_matches.
    by rewrite contains_empty. }
  rewrite filter_all by (intros cmd; apply Hall).
  f_equal. f_equal.
  - apply flat_map_ext. intros cls. rewrite class_step_spec, Hall. simpl.
    by rewrite filter_all by (intros prop; apply Hall).
  - rewrite <- flat_map_singleton. apply flat_map_ext. intros enum.
    by rewrite enum_step_spec, contains_empty.
Qed.

(** X19: a search sees its query in lower case only: two queries that
    [str.lower] maps to the same string have the same hits, and on a
    loaded dictionary with hits the two answers differ only in the query
    they repeat after the word [Search]. *)
Theorem search_ignores_query_case {L : StrLower} (h : Host)
    (app_name a b : string) (w : World) (parser : SDEFParser) :
  _sdef_cache w !! app_name = Some parser →
  str_lower a = str_lower b →
  search_hits parser a = search_hits parser b
  ∧ (search_hits parser a ≠ [] →
     ∃ rest,
       search_dictionary h app_name a w = (inr ("Search '" +:+ a +:+ rest), w)
       ∧ search_dictionary h app_name b w
         = (inr ("Search '" +:+ b +:+ rest), w)).
Proof.
  intros Hin Hab.
  assert (search_hits parser a = search_hits parser b) as Hhits.
  { unfold search_hits. by rewrite Hab. }
  split; [exact Hhits|]. intros Hsome.
  exists ("' in " +:+ app_name
          +:+ " (" +:+ Py.str_of_nat (length (search_hits parser a))
          +:+ " hits):" +:+ Py.nl +:+ Py.join Py.nl (search_hits parser a)).
  unfold search_dictionary.
  rewrite (tool_on_loaded h app_name w parser
             (λ p, search_text p app_name a) Hin).
  rewrite (tool_on_loaded h app_name w parser
             (λ p, search_text p app_name b) Hin).
  unfold search_text. rewrite <- Hhits.
  destruct (search_hits parser a); [done|]. simpl.
  by rewrite ?append_assoc.
Qed.

Lemma search_ignores_query_case_witness :
  search_hits (L := ascii_lower) parser_demo "Close"
  = search_hits (L := ascii_lower) parser_demo "close"
  ∧ ∃ rest,
      search_dictionary (L := ascii_lower) host_bare "Demo" "Close" world_demo
      = (inr ("Search '" +:+ "Close" +:+ rest), world_demo)
      ∧ search_dictionary (L := ascii_lower) host_bare "Demo" "close" world_demo
        = (inr ("Search '" +:+ "close" +:+ rest), world_demo).
Proof.
  destruct (search_ignores_query_case (L := ascii_lower) host_bare "Demo"
              "Close" "close" world_demo parser_demo eq_refl eq_refl)
    as [Hhits Htext].
  split; [exact Hhits|]. apply Htext. vm_compute. discriminate.
Defined.

(** ** App discovery *)

Lemma mdfind_paths_nonempty (out p : string) :
  p ∈ Discovery.mdfind_paths out → p ≠ "".
Proof.
  unfold Discovery.mdfind_paths. intros Hp.
  apply elem_of_map_filter in Hp as (line & _ & Hline & ->).
  by destruct (PyStr.strip line).
Qed.

Lemma path_join_nonempty (a b : string) : b ≠ "" → PyStr.path_join a b ≠ "".
Proof.
  intros Hb. unfold PyStr.path_join.
  destruct (PyStr.startswith b "/"); [done|].
  destruct (negb (Py.truthy a) || PyStr.ends_with_slash a);
    destruct a; try done; by destruct b.
Qed.

(** X20: [_find_app_path] never returns an empty path: what it takes from
    [mdfind] is a line that is not blank, with the white space around it
    removed, and what it takes from the common directories ends in the
    bundle's file name. *)
Theorem find_app_path_never_empty (os : OS) (name p : string) :
  Discovery._find_app_path os name = Some p → p ≠ "".
Proof.
  unfold Discovery._find_app_path.
  assert (∀ q, List.find (path_exists os)
                 (map (λ base, PyStr.path_join base (name +:+ ".app"))
                    (Discovery.common_directories os)) = Some q → q ≠ "")
    as Hfallback.
  { intros q Hq. apply find_some in Hq as [Hq _].
    apply in_map_iff in Hq as (base & <- & _).
    apply path_join_nonempty. by destruct name. }
  destruct (run_mdfind os (Discovery.mdfind_query name)) as [out|];
    [|apply Hfallback].
  destruct (Discovery.mdfind_paths out) as [|first rest] eqn:Hpaths;
    [apply Hfallback|].
  destruct (List.find Discovery.preferred (first :: rest)) as [q|] eqn:Hq.
  - intros [= <-]. apply find_some in Hq as [Hq _].
    apply (mdfind_paths_nonempty out). rewrite Hpaths.
    by apply list_elem_of_In.
  - intros [= <-]. apply (mdfind_paths_nonempty out). rewrite Hpaths. left.
Qed.

Lemma find_app_path_never_empty_witness :
  "/Applications/Demo.app" ≠ "".
Proof.
  apply (find_app_path_never_empty os_demo "Demo" "/Applications/Demo.app").
  vm_compute. reflexivity.
Defined.

Lemma find_first_preferred (before after : list string) (p : string) :
  Forall (λ q, Discovery.preferred q = false) before →
  Discovery.preferred p = true →
  List.find Discovery.preferred (before ++ p :: after) = Some p.
Proof.
  intros Hbefore Hp. induction Hbefore as [|q before Hq _ IH]; simpl.
  - by rewrite Hp.
  - by rewrite Hq.
Qed.

Lemma find_no_preferred (paths : list string) :
  Forall (λ q, Discovery.preferred q = false) paths →
  List.find Discovery.preferred paths = None.
Proof.
  induction 1 as [|q paths Hq _ IH]; simpl; [done|]. by rewrite Hq.
Qed.

(** X21: what [_find_app_path] makes of the output of [mdfind].  Of the
    paths printed (the lines that are not blank, white space around them
    removed) it returns the first that starts with [/Applications] or
    [/System/Applications]; when none does, it returns the first path
    printed.  Whether the path exists is not asked. *)
Theorem find_app_path_from_mdfind (os : OS) (name out : string) :
  run_mdfind os (Discovery.mdfind_query name) = Some out →
  (∀ before p after,
     Discovery.mdfind_paths out = before ++ p :: after →
     Forall (λ q, Discovery.preferred q = false) before →
     Discovery.preferred p = true →
     Discovery._find_app_path os name = Some p)
  ∧ (∀ first rest,
       Discovery.mdfind_paths out = first :: rest →
       Forall (λ q, Discovery.preferred q = false) (first :: rest) →
       Discovery._find_app_path os name = Some first).
Proof.
  intros Hrun. unfold Discovery._find_app_path. rewrite Hrun. split.
  - intros before p after Hpaths Hbefore Hp. rewrite Hpaths.
    rewrite (find_first_preferred before after p Hbefore Hp).
    by destruct before.
  - intros first rest Hpaths Hnone. rewrite Hpaths.
    by rewrite (find_no_preferred _ Hnone).
Qed.

Lemma find_app_path_from_mdfind_witness :
  Discovery._find_app_path os_demo "Demo" = Some "/Applications/Demo.app"
  ∧ Discovery._find_app_path
      {| run_mdfind := λ query, Some (" /Volumes/Disk/Demo.app " +:+ Py.nl
                                      +:+ "/opt/Demo.app");
         path_exists := λ p, false;
         user_applications := "/Users/me/Applications";
         run_sdef := run_sdef os_bare;
         glob_apps := glob_apps os_bare |} "Demo"
    = Some "/Volumes/Disk/Demo.app".
Proof.
  split.
  - apply (proj1 (find_app_path_from_mdfind os_demo "Demo"
                    ("  /Users/me/Applications/Demo.app" +:+ Py.nl
                     +:+ Py.nl +:+ "/Applications/Demo.app  " +:+ Py.nl)
                    eq_refl)
             ["/Users/me/Applications/Demo.app"] "/Applications/Demo.app" []).
    + reflexivity.
    + repeat constructor.
    + reflexivity.
  - apply (proj2 (find_app_path_from_mdfind
                    {| run_mdfind :=
                         λ query, Some (" /Volumes/Disk/Demo.app " +:+ Py.nl
                                        +:+ "/opt/Demo.app");
                       path_exists := λ p, false;
                       user_applications := "/Users/me/Applications";
                       run_sdef := run_sdef os_bare;
                       glob_apps := glob_apps os_bare |} "Demo"
                    (" /Volumes/Disk/Demo.app " +:+ Py.nl +:+ "/opt/Demo.app")
                    eq_refl)
             "/Volumes/Disk/Demo.app" ["/opt/Demo.app"]).
    + reflexivity.
    + repeat constructor.
Defined.

Lemma startswith_slash_app (name : string) :
  PyStr.startswith (name +:+ ".app") "/" = PyStr.startswith name "/".
Proof.
  destruct name as [|c name]; [reflexivity|].
  unfold PyStr.startswith. apply eq_true_iff_eq. rewrite !prefix_spec.
  rewrite append_cons. split; intros [post Hpost].
  - rewrite append_cons in Hpost. injection Hpost as -> _. by exists name.
  - rewrite append_cons in Hpost. injection Hpost as -> ->.
    by exists (post +:+ ".app").
Qed.

(** X22: the fallback of [_find_app_path].  When [mdfind] cannot be run,
    or prints no path, the result is the first of three candidates that
    exists, tried in this order: [name.app] under [/Applications], under
    [/System/Applications] and under the user's applications directory;
    when none exists there is no result.  For a name that starts with a
    slash the candidate is [name.app] itself, outside those directories. *)
Theorem find_app_path_fallback (os : OS) (name : string) :
  run_mdfind os (Discovery.mdfind_query name) = None
  ∨ (∃ out, run_mdfind os (Discovery.mdfind_query name) = Some out
            ∧ Discovery.mdfind_paths out = []) →
  (PyStr.startswith name "/" = false →
   Discovery._find_app_path os name
   = if path_exists os ("/Applications/" +:+ name +:+ ".app")
     then Some ("/Applications/" +:+ name +:+ ".app")
     else if path_exists os ("/System/Applications/" +:+ name +:+ ".app")
     then Some ("/System/Applications/" +:+ name +:+ ".app")
     else if path_exists os
               (PyStr.path_join (user_applications os) (name +:+ ".app"))
     then Some (PyStr.path_join (user_applications os) (name +:+ ".app"))
     else None)
  ∧ (PyStr.startswith name "/" = true →
     Discovery._find_app_path os name
     = if path_exists os (name +:+ ".app")
       then Some (name +:+ ".app") else None).
Proof.
  intros Hmdfind.
  assert (Discovery._find_app_path os name
          = List.find (path_exists os)
              (map (λ base, PyStr.path_join base (name +:+ ".app"))
                 (Discovery.common_directories os))) as ->.
  { unfold Discovery._find_app_path.
    destruct Hmdfind as [-> | (out & -> & ->)]; reflexivity. }
  unfold Discovery.common_directories. simpl. split; intros Hslash.
  - assert (PyStr.startswith (name +:+ ".app") "/" = false) as Hrel
      by (by rewrite startswith_slash_app).
    assert (PyStr.path_join "/Applications" (name +:+ ".app")
            = "/Applications/" +:+ name +:+ ".app") as ->.
    { unfold PyStr.path_join. by rewrite Hrel. }
    assert (PyStr.path_join "/System/Applications" (name +:+ ".app")
            = "/System/Applications/" +:+ name +:+ ".app") as ->.
    { unfold PyStr.path_join. by rewrite Hrel. }
    reflexivity.
  - assert (∀ base, PyStr.path_join base (name +:+ ".app") = name +:+ ".app")
      as Habs.
    { intros base. unfold PyStr.path_join.
      by rewrite startswith_slash_app, Hslash. }
    rewrite !Habs.
    by destruct (path_exists os (name +:+ ".app")).
Qed.

Lemma find_app_path_fallback_witness :
  Discovery._find_app_path os_bare "Notes"
  = Some "/System/Applications/Notes.app"
  ∧ Discovery._find_app_path os_bare "/System/Applications/Notes"
    = Some "/System/Applications/Notes.app".
Proof.
  split.
  - rewrite (proj1 (find_app_path_fallback os_bare "Notes"
                      (or_introl eq_refl)) eq_refl).
    reflexivity.
  - rewrite (proj2 (find_app_path_fallback os_bare
                      "/System/Applications/Notes"
                      (or_introl eq_refl)) eq_refl).
    reflexivity.
Defined.

(** X23: loading on an operating system.  When the bundle is found and
    [sdef] exits with a code other than zero, the load raises a
    [ValueError] that names the bundle's path and carries what [sdef] wrote
    to its error stream, white space around it removed; the output is not
    read and the cache stays as before.  When [sdef] exits with zero, its
    output is what gets parsed, whatever it wrote to its error stream. *)
Theorem load_runs_sdef (os : OS) (fromstring : string → string + Element)
    (app_name : string) (w : World) (c : ascii) (p : string)
    (result : Completed) :
  _sdef_cache w !! app_name = None →
  Discovery._find_app_path os app_name = Some (String c p) →
  run_sdef os (String c p) = inr result →
  (returncode result ≠ 0%Z →
   _get_parser (host_on os fromstring) app_name w
   = (inl (ValueError
             ("Could not get SDEF for " +:+ String c p +:+ ". "
              +:+ "The app may not be scriptable. stderr: "
              +:+ PyStr.strip (stderr result))),
      {| _sdef_cache := _sdef_cache w;
         host_calls := host_calls w
                       ++ [FindAppPath app_name; GetSdefXml (String c p)] |}))
  ∧ (returncode result = 0%Z →
     ∀ root_el,
       fromstring (stdout result) = inr root_el →
       (_get_parser (host_on os fromstring) app_name w).1
       = inr {| root := root_el;
                title := default "" (get root_el "title");
                suites := _parse root_el |}).
Proof.
  intros Hout Hpath Hrun.
  rewrite (get_parser_miss (host_on os fromstring) app_name w Hout).
  simpl. rewrite Hpath. unfold Discovery._get_sdef_xml. rewrite Hrun.
  split.
  - intros Hcode. rewrite bool_decide_eq_true_2 by done.
    by rewrite <- app_assoc.
  - intros Hcode root_el Hroot.
    rewrite bool_decide_eq_false_2 by (by intros ?).
    unfold SDEFParser_init. by rewrite Hroot.
Qed.

Lemma load_runs_sdef_witness :
  _get_parser (host_on os_bare (λ xml, inr doc_demo)) "Notes" world_start
  = (inl (ValueError
            ("Could not get SDEF for /System/Applications/Notes.app. "
             +:+ "The app may not be scriptable. stderr: "
             +:+ "sdef: not scriptable")),
     {| _sdef_cache := ∅;
        host_calls := [FindAppPath "Notes";
                       GetSdefXml "/System/Applications/Notes.app"] |})
  ∧ (_get_parser (host_on os_demo (λ xml, inr doc_demo)) "Demo" world_start).1
    = inr parser_demo.
Proof.
  split.
  - apply (proj1 (load_runs_sdef os_bare (λ xml, inr doc_demo) "Notes"
                    world_start "/" "System/Applications/Notes.app"
                    {| returncode := 1; stdout := "";
                       stderr := "sdef: not scriptable" +:+ Py.nl |}
                    eq_refl eq_refl eq_refl)).
    discriminate.
  - apply (proj2 (load_runs_sdef os_demo (λ xml, inr doc_demo) "Demo"
                    world_start "/" "Applications/Demo.app"
                    {| returncode := 0;
                       stdout := "<dictionary title='Demo'/>";
                       stderr := "warning" |}
                    eq_refl eq_refl eq_refl)).
    + reflexivity.
    + reflexivity.
Defined.

(** ** [list_scriptable_apps] *)

Lemma scriptable_stems_spec (os : OS) (search_dir : string) :
  scriptable_stems os search_dir
  = flat_map
      (λ d, if path_exists os d
            then map bundle_stem (List.filter is_scriptable (glob_apps os d))
            else [])
      (dirs_to_check os search_dir).
Proof.
  unfold scriptable_stems.
  rewrite (fold_left_appending
             (λ scriptable d,
                if negb (path_exists os d) then scriptable
                else Py.for_append_if is_scriptable bundle_stem
                       (glob_apps os d) scriptable)).
  - simpl. apply flat_map_ext. intros d.
    destruct (path_exists os d); simpl; [|done].
    by rewrite for_append_if_spec.
  - intros acc d. destruct (path_exists os d); simpl.
    + by rewrite !for_append_if_spec.
    + by rewrite app_nil_r.
Qed.

Lemma dirs_to_check_elem (os : OS) (search_dir d : string) :
  d ∈ dirs_to_check os search_dir
  ↔ d = search_dir
    ∨ (search_dir = "/Applications"
       ∧ (d = "/System/Applications" ∨ d = user_applications os)).
Proof.
  unfold dirs_to_check.
  destruct (String.eqb search_dir "/Applications") eqn:E.
  - apply String.eqb_eq in E. simpl.
    rewrite !elem_of_cons, elem_of_nil. split.
    + intros [Hd | [Hd | [Hd | []]]].
      * by left.
      * right. split; [done|]. by left.
      * right. split; [done|]. by right.
    + intros [Hd | [_ [Hd | Hd]]].
      * by left.
      * right. by left.
      * right. right. by left.
  - apply String.eqb_neq in E.
    rewrite list_elem_of_singleton. split.
    + intros Hd. by left.
    + intros [Hd | [Heq _]]; [done|]. by destruct E.
Qed.

(** X24: what [list_scriptable_apps] lists.  The names are the stems of
    the bundles found under the search directory (and, when that is
    [/Applications], under [/System/Applications] and the user's
    applications directory as well; a directory that does not exist is
    passed over) whose property list loads and has the key
    [OSAScriptingDefinition] or the flag [NSAppleScriptEnabled]; each name
    is listed once, in ascending order, one per line after the heading; and
    when there is no such bundle the answer is the no-apps line. *)
Theorem list_scriptable_apps_lists (os : OS) (search_dir : string) :
  let names := Py.sorted_set (scriptable_stems os search_dir) in
  StronglySorted String.le names
  ∧ NoDup names
  ∧ (∀ name,
       name ∈ names
       ↔ ∃ d app,
           (d = search_dir
            ∨ (search_dir = "/Applications"
               ∧ (d = "/System/Applications" ∨ d = user_applications os)))
           ∧ path_exists os d = true
           ∧ app ∈ glob_apps os d
           ∧ is_scriptable app = true
           ∧ bundle_stem app = name)
  ∧ list_scriptable_apps os search_dir
    = match names with
      | [] => "No scriptable apps found."
      | _ :: _ =>
          "Scriptable apps:" +:+ Py.nl
          +:+ Py.join Py.nl (map (λ app, "  " +:+ app) names)
      end.
Proof.
  intros names. subst names.
  destruct (sorted_set_spec (scriptable_stems os search_dir))
    as (Hsorted & Hnodup & Helem).
  split; [exact Hsorted|]. split; [exact Hnodup|]. split.
  - intros name. rewrite Helem, scriptable_stems_spec, elem_of_flat_map.
    split.
    + intros (d & Hd & Hname). apply dirs_to_check_elem in Hd.
      destruct (path_exists os d) eqn:Hex; [|by apply elem_of_nil in Hname].
      apply elem_of_map_filter in Hname as (app & Happ & Hs & ->).
      by exists d, app.
    + intros (d & app & Hd & Hex & Happ & Hs & <-).
      exists d. split; [by apply dirs_to_check_elem|].
      rewrite Hex. apply elem_of_map_filter. by exists app.
  - unfold list_scriptable_apps.
    destruct (scriptable_stems os search_dir) as [|stem stems] eqn:E.
    + reflexivity.
    + simpl.
      destruct (Py.sorted_set (stem :: stems)) as [|n ns]; [|done].
      assert (stem ∈ @nil string) as Hin by (apply Helem; left).
      by apply elem_of_nil in Hin.
Qed.

(** ** [get_app_suites] *)

Lemma flat_map_map {A B C} (f : B → list C) (g : A → B) (xs : list A) :
  flat_map f (map g xs) = flat_map (λ x, f (g x)) xs.
Proof. induction xs as [|x xs IH]; simpl; [done|]. by rewrite IH. Qed.

Lemma fmt_suites_overview_spec (parser : SDEFParser) :
  _fmt_suites_overview parser
  = Py.rstrip
      (Py.join Py.nl
         (flat_map
            (λ s, [ "■ " +:+ suite_name s;
                    "  " +:+ Py.or_ (suite_description s) "—";
                    "  " +:+ Py.str_of_nat (length (suite_commands s))
                    +:+ " commands · "
                    +:+ Py.str_of_nat (length (suite_classes s))
                    +:+ " classes · "
                    +:+ Py.str_of_nat (length (suite_enumerations s))
                    +:+ " enums";
                    "" ])
            (suites parser))).
Proof.
  unfold _fmt_suites_overview. do 2 f_equal.
  etrans; [apply fold_left_appending|reflexivity].
  intros lines s. simpl. by rewrite <- !app_assoc.
Qed.

(** X25: from the document to the overview.  For the parser of a root
    element, the overview has, for each [suite] child in document order,
    the line of its name, the line of its description (a dash when there is
    none, or an empty one), the line of its counts and an empty line: the
    commands counted are its [command] children, the classes its [class]
    and [class-extension] children together, the enumerations its
    [enumeration] children; white space at the end is removed. *)
Theorem overview_from_document (root_el : Element) (title' : string) :
  _fmt_suites_overview
    {| root := root_el; title := title'; suites := _parse root_el |}
  = Py.rstrip
      (Py.join Py.nl
         (flat_map
            (λ suite_el,
               [ "■ " +:+ default "" (get suite_el "name");
                 "  " +:+ match get suite_el "description" with
                          | Some (String c d) => String c d
                          | _ => "—"
                          end;
                 "  " +:+ Py.str_of_nat (length (findall suite_el "command"))
                 +:+ " commands · "
                 +:+ Py.str_of_nat
                       (length (findall suite_el "class")
                        + length (findall suite_el "class-extension"))
                 +:+ " classes · "
                 +:+ Py.str_of_nat (length (findall suite_el "enumeration"))
                 +:+ " enums";
                 "" ])
            (findall root_el "suite"))).
Proof.
  rewrite fmt_suites_overview_spec. simpl.
  rewrite parse_unfold, flat_map_map. do 2 f_equal.
  apply flat_map_ext. intros suite_el. simpl.
  rewrite length_app, !length_map.
  unfold get_or, get, Py.or_.
  by destruct (attrib suite_el !! "description") as [[|c d]|].
Qed.

(** X26: the heading of the overview.  On a loaded dictionary
    [get_app_suites] answers with [Dictionary:] and the document's title,
    or the identifier as given when the title is empty, then an empty line
    and the overview; the overview ends in no white space, and for a
    dictionary without suites it is empty. *)
Theorem get_app_suites_heading (h : Host) (app_name : string) (w : World)
    (parser : SDEFParser) :
  _sdef_cache w !! app_name = Some parser →
  get_app_suites h app_name w
  = (inr ("Dictionary: "
          +:+ (if bool_decide (title parser = "") then app_name
               else title parser)
          +:+ Py.nl +:+ Py.nl +:+ _fmt_suites_overview parser), w)
  ∧ Py.rstrip (_fmt_suites_overview parser) = _fmt_suites_overview parser
  ∧ (suites parser = [] → _fmt_suites_overview parser = "").
Proof.
  intros Hin. split; [|split].
  - unfold get_app_suites.
    rewrite (tool_on_loaded h app_name w parser
               (λ p, app_suites_text p app_name) Hin).
    unfold app_suites_text, Py.or_.
    destruct (title parser) as [|c t]; simpl; by rewrite ?append_assoc.
  - unfold _fmt_suites_overview. apply rstrip_idem.
  - intros Hnone. unfold _fmt_suites_overview. by rewrite Hnone.
Qed.

Lemma get_app_suites_heading_witness :
  get_app_suites host_bare "Notes"
    {| _sdef_cache := {[ "Notes" := mkSDEFParser doc_demo "" [] ]};
       host_calls := [] |}
  = (inr ("Dictionary: Notes" +:+ Py.nl +:+ Py.nl),
     {| _sdef_cache := {[ "Notes" := mkSDEFParser doc_demo "" [] ]};
        host_calls := [] |}).
Proof.
  assert (_sdef_cache
            {| _sdef_cache := {[ "Notes" := mkSDEFParser doc_demo "" [] ]};
               host_calls := [] |} !! "Notes"
          = Some (mkSDEFParser doc_demo "" [])) as Hin
    by (vm_compute; reflexivity).
  rewrite (proj1 (get_app_suites_heading host_bare "Notes" _ _ Hin)).
  reflexivity.
Defined.

(** ** The samples, parsed *)




Example parse_class_responds_sample :
  cls_responds_to (_parse_class cls_responds)
  = ["close"; "print"; "save"; "quit"].
Proof. reflexivity. Qed.

Example parse_noisy_sample :
  map suite_name (_parse doc_noisy)
  = ["Outer"; "Standard Suite"; "standard suite"]
  ∧ map (λ s, length (suite_commands s)) (_parse doc_noisy) = [1; 1; 1].
Proof. split; reflexivity. Qed.

Example list_scriptable_apps_sample :
  list_scriptable_apps os_demo "/Applications"
  = "Scriptable apps:" +:+ Py.nl +:+ "  Demo" +:+ Py.nl
    +:+ "  Notes" +:+ Py.nl +:+ "  Safari"
  ∧ list_scriptable_apps os_demo "/Users" = "No scriptable apps found.".
Proof. split; reflexivity. Qed.
